(** * WeatherDisplay: the weather fetcher, the icon resolver and the formatter

    A shallow embedding of [weather_display.py]: the [WeatherFormatter],
    [WeatherImageSelector] and [WeatherDataFetcher] classes, with the Python
    values they handle, the exceptions they raise and the file system and
    network they talk to, followed by the properties of the design document
    that were checked against them.

    Conventions.
    - A Python exception is a value of [exn]; code that can raise returns a
      [result].  [sys.exit(1)] is [SystemExit 1].
    - Python numbers (int and float alike) are rationals.  The arithmetic the
      embedded code performs on them (sums, products by 100, a quotient by
      22.5, comparisons) is exact on every value used in the examples below.
      On other values a float operation of Python rounds its result to the
      nearest double, which can differ from the rational result in the last
      place; NaN and the infinities are not modelled.
    - Console output ([print]) is not modelled. *)

From Stdlib Require Import QArith Qabs Qround Lqa DecimalString Ascii String.
From stdpp Require Import gmap strings list fin_maps.

#[local] Set Warnings "-register-all".
Local Open Scope string_scope.
Local Open Scope Z_scope.

(** ** Exceptions *)

Inductive exn : Type :=
  | AttributeError (attr : string)
  | KeyError
  | IndexError
  | TypeError
  | FileNotFoundError
  | NotADirectoryError
  | IsADirectoryError
  | RenderError
  | SystemExit (code : Z).

Inductive result (A : Type) : Type :=
  | Ok (a : A)
  | Raise (e : exn).
Arguments Ok {A} a.
Arguments Raise {A} e.

Definition rbind {A B} (m : result A) (k : A -> result B) : result B :=
  match m with
  | Ok a => k a
  | Raise e => Raise e
  end.

Notation "'do' x <~ m ; k" := (rbind m (fun x => k))
  (at level 10, x name, m at level 100, k at level 200).

(** [try: ... except Exception: return None]; [SystemExit] is not an
    [Exception] and would pass through, none of the guarded bodies raises it. *)
Definition try_except {A} (m : result A) : option A :=
  match m with
  | Ok a => Some a
  | Raise _ => None
  end.

(** ** Python values

    What [json.loads] produces, and what the container classes hold. *)

Inductive pyval : Type :=
  | PNone
  | PBool (b : bool)
  | PNum (q : Q)
  | PStr (s : string)
  | PList (l : list pyval)
  | PDict (kv : list (string * pyval)).

Inductive pykey : Type :=
  | KStr (s : string)
  | KInt (i : Z).

Fixpoint assoc_lookup {A} (k : string) (kv : list (string * A)) : option A :=
  match kv with
  | [] => None
  | (k', v) :: rest => if String.eqb k k' then Some v else assoc_lookup k rest
  end.

(** Python's sequence index: negative indices count from the end. *)
Definition py_index {A} (l : list A) (i : Z) : option A :=
  let n := Z.of_nat (length l) in
  let j := if i <? 0 then n + i else i in
  if (0 <=? j) && (j <? n) then nth_error l (Z.to_nat j) else None.

Definition chars (s : string) : list string :=
  map (fun c => String c EmptyString) (list_ascii_of_string s).

(** [v[k]] *)
Definition py_getitem (v : pyval) (k : pykey) : result pyval :=
  match v, k with
  | PDict kv, KStr s =>
      match assoc_lookup s kv with Some x => Ok x | None => Raise KeyError end
  | PDict _, KInt _ => Raise KeyError
  | PList l, KInt i =>
      match py_index l i with Some x => Ok x | None => Raise IndexError end
  | PStr s, KInt i =>
      match py_index (chars s) i with Some c => Ok (PStr c) | None => Raise IndexError end
  | _, _ => Raise TypeError
  end.

(** [for x in v] *)
Definition py_iter (v : pyval) : result (list pyval) :=
  match v with
  | PList l => Ok l
  | PStr s => Ok (map PStr (chars s))
  | PDict kv => Ok (map (fun p => PStr (fst p)) kv)
  | _ => Raise TypeError
  end.

Fixpoint str_repeat (n : nat) (s : string) : string :=
  match n with
  | O => ""
  | S n' => s ++ str_repeat n' s
  end.

(** [v * 100]: numbers are scaled, sequences are repeated. *)
Definition py_mul100 (v : pyval) : result pyval :=
  match v with
  | PNum q => Ok (PNum (q * 100))
  | PBool b => Ok (PNum (if b then 100 else 0))
  | PStr s => Ok (PStr (str_repeat 100 s))
  | PList l => Ok (PList (concat (replicate 100 l)))
  | _ => Raise TypeError
  end.

(** [a + v] for a number [a]. *)
Definition py_add_num (a : Q) (v : pyval) : result pyval :=
  match v with
  | PNum q => Ok (PNum (a + q))
  | PBool b => Ok (PNum (a + (if b then 1 else 0)))
  | _ => Raise TypeError
  end.

Definition is_str (v : pyval) (s : string) : bool :=
  match v with
  | PStr s' => String.eqb s' s
  | _ => false
  end.

(** [k in s] for two strings: [k] occurs in [s]. *)
Fixpoint str_contains (k s : string) : bool :=
  String.prefix k s ||
  match s with
  | EmptyString => false
  | String _ s' => str_contains k s'
  end.

(** [k in v] for a string [k]. *)
Definition py_contains (k : string) (v : pyval) : result bool :=
  match v with
  | PDict kv => Ok (bool_decide (is_Some (assoc_lookup k kv)))
  | PList l => Ok (existsb (fun x => is_str x k) l)
  | PStr s => Ok (str_contains k s)
  | _ => Raise TypeError
  end.

(** Truncation toward zero, as [%d] and [int()] do. *)
Definition Qtrunc (q : Q) : Z := Z.quot (Qnum q) (Zpos (Qden q)).

Definition str_of_Z (z : Z) : string := NilZero.string_of_int (Z.to_int z).

(** ["%d" % v] *)
Definition py_format_d (v : pyval) : result string :=
  match v with
  | PNum q => Ok (str_of_Z (Qtrunc q))
  | PBool b => Ok (if b then "1" else "0")
  | _ => Raise TypeError
  end.

(** [round(q)]: to the nearest integer, ties to the even one. *)
Definition py_round (q : Q) : Z :=
  let f := Qfloor q in
  match (q - inject_Z f ?= 1 # 2)%Q with
  | Lt => f
  | Gt => f + 1
  | Eq => if Z.even f then f else f + 1
  end.

(** [s.replace(old, new)] for a non-empty [old]: the occurrences are replaced
    from left to right, without overlap.  [skip] counts the characters of a
    match that are still to be dropped. *)
Fixpoint str_replace_go (old new : string) (skip : nat) (s : string) : string :=
  match s with
  | EmptyString => EmptyString
  | String c s' =>
      match skip with
      | S k => str_replace_go old new k s'
      | O =>
          if String.prefix old s
          then new ++ str_replace_go old new (String.length old - 1) s'
          else String c (str_replace_go old new O s')
      end
  end.

Definition str_replace (old new s : string) : string :=
  str_replace_go old new O s.

Fixpoint str_endswith_rev (suffix_rev s_rev : list ascii) : bool :=
  match suffix_rev, s_rev with
  | [], _ => true
  | _ :: _, [] => false
  | a :: u, b :: v => if Ascii.eqb a b then str_endswith_rev u v else false
  end.

(** [s.endswith(suffix)] *)
Definition str_endswith (s suffix : string) : bool :=
  str_endswith_rev (rev (list_ascii_of_string suffix)) (rev (list_ascii_of_string s)).

Definition str_startswith (s pre : string) : bool := String.prefix pre s.

(** [os.path.join(a, b)] on POSIX paths. *)
Definition os_path_join (a b : string) : string :=
  if str_startswith b "/" then b
  else if String.eqb a "" || str_endswith a "/" then a ++ b
  else a ++ "/" ++ b.

(** ** Configuration

    The keys of the [configparser] file that the three classes read. *)

Record Config : Type := {
  location_time_format : string;
  location_date_format : string;
  location_units : string;
  location_latitude : string;
  location_longitude : string;
  icons_image_dir : string;
  icons_mapping_file : string;
  icons_image_set : string;
  icons_image_color : string;
  icons_svg_dir : option string;
  weather_api_key : string;
  weather_api_weather_url : string;
  weather_api_forecast_url : string;
  weather_api_poll_interval_seconds : Z
}.

(** ** Container classes *)

Module Forecast.
Record t : Type := {
  condition_id : pyval;
  condition_text : pyval;
  condition_time : string;
  humidity : pyval;
  precip_chance : pyval;
  temp : pyval;
  timestamp : pyval
}.
End Forecast.

Module Weather.
Record t : Type := {
  condition_id : pyval;
  condition_text : pyval;
  condition_time : string;
  hourly_precip : pyval;
  humidity : pyval;
  temp : pyval;
  timezone : pyval;
  wind_speed : pyval;
  wind_dir : pyval
}.
End Weather.

(** ** WeatherFormatter *)

Module WeatherFormatter.

(** The instance attributes.  [__init__] always sets [temp_unit] and
    [wind_unit]; the underscored [_temp_unit] and [_wind_unit], which the
    format methods read, are set only in the branches shown below, so they
    are optional here and reading a missing one raises [AttributeError]. *)
Record t : Type := {
  _time_format : string;
  _date_format : string;
  _units : string;
  temp_unit : string;
  wind_unit : string;
  _temp_unit : option string;
  _wind_unit : option string
}.

Definition directions : list string :=
  ["N"; "NNE"; "NE"; "ENE"; "E"; "ESE"; "SE"; "SSE";
   "S"; "SSW"; "SW"; "WSW"; "W"; "WNW"; "NW"; "NNW"].

Definition __init__ (config : Config) : t :=
  let units := location_units config in
  let self := {| _time_format := location_time_format config;
                 _date_format := location_date_format config;
                 _units := units;
                 temp_unit := "°K";
                 wind_unit := "m/s";
                 _temp_unit := None;
                 _wind_unit := None |} in
  if String.eqb units "metric" then
    {| _time_format := _time_format self; _date_format := _date_format self;
       _units := _units self; temp_unit := temp_unit self; wind_unit := wind_unit self;
       _temp_unit := Some "°C";
       _wind_unit := _wind_unit self |}
  else if String.eqb units "imperial" then
    {| _time_format := _time_format self; _date_format := _date_format self;
       _units := _units self; temp_unit := temp_unit self; wind_unit := wind_unit self;
       _temp_unit := Some "°F";
       _wind_unit := Some "mph" |}
  else self.

Definition getattr (name : string) (a : option string) : result string :=
  match a with
  | Some v => Ok v
  | None => Raise (AttributeError name)
  end.

(** A number as an operand of [/]. *)
Definition py_num (v : pyval) : result Q :=
  match v with
  | PNum q => Ok q
  | PBool b => Ok (if b then 1 else 0)%Q
  | _ => Raise TypeError
  end.

(** [round(degree / (360.0 / len(self.directions)))] *)
Definition wind_index (degree : Q) : Z :=
  py_round (degree / (360 / inject_Z (Z.of_nat (length directions))))%Q.

Definition format_wind_speed (self : t) (speed degree : pyval) (label : string)
  : result string :=
  do d <~ py_num degree;
  let index := wind_index d in
  do unit <~ getattr "_wind_unit" (_wind_unit self);
  do dir <~ match py_index directions (index mod 16) with
            | Some x => Ok x
            | None => Raise IndexError
            end;
  do sp <~ py_format_d speed;
  Ok (label ++ " " ++ sp ++ " " ++ unit ++ " " ++ dir).

Definition format_temp (self : t) (temp : pyval) (label : string) : result string :=
  do unit <~ getattr "_temp_unit" (_temp_unit self);
  do tp <~ py_format_d temp;
  Ok (label ++ " " ++ tp ++ " " ++ unit).

Definition format_percentage (self : t) (humidity : pyval) (label : string)
  : result string :=
  do h <~ py_format_d humidity;
  Ok (label ++ " " ++ h ++ "%").

Definition newline : string := String (ascii_of_nat 10) EmptyString.

Definition format_forecast (self : t) (forecast : Forecast.t) : result string :=
  do a <~ format_temp self (Forecast.temp forecast) "T:";
  do b <~ format_percentage self (Forecast.humidity forecast) "H:";
  do p <~ py_mul100 (Forecast.precip_chance forecast);
  do c <~ format_percentage self p "P:";
  Ok (a ++ newline ++ b ++ newline ++ c).

Section Formats.

(** ["%0.2f" % q]: the decimal rendering with two digits after the point. *)
Variable format_2f : Q -> string.

(** [datetime.fromtimestamp(q).strftime(pattern)] in the local time zone;
    it raises where the timestamp is out of the platform's range. *)
Variable strftime : string -> Q -> result string.

(** Millimetres to inches. *)
Definition mm_to_in : Q := 393700787 # 10000000000.

Definition format_precip (self : t) (precip : pyval) (label : string) : result string :=
  if String.eqb (_units self) "imperial" then
    do p <~ py_num precip;
    Ok (label ++ " " ++ format_2f (p * mm_to_in) ++ " in/h")
  else
    do p <~ py_format_d precip;
    Ok (label ++ " " ++ p ++ " mm/h").

Definition format_weather (self : t) (weather : Weather.t) : result string :=
  do a <~ format_temp self (Weather.temp weather) "Temp:";
  do b <~ format_percentage self (Weather.humidity weather) "Humidity:";
  do c <~ format_precip self (Weather.hourly_precip weather) "Precip:";
  do d <~ format_wind_speed self (Weather.wind_speed weather) (Weather.wind_dir weather)
            "Wind: ";
  Ok (a ++ newline ++ b ++ newline ++ c ++ newline ++ d).

Definition format_datetime (self : t) (timestamp : pyval) : result string :=
  do q <~ py_num timestamp;
  strftime (_date_format self) q.

Definition format_time (self : t) (timestamp : pyval) : result string :=
  do q <~ py_num timestamp;
  strftime (_time_format self) q.

End Formats.

End WeatherFormatter.

(** ** The file system

    A flat map from path to node.  A directory lists the paths that extend
    its own by one component. *)

Inductive fnode : Type :=
  | FFile (content : string)
  | FDir.

(** The state the icon resolver works on: the file system, and the paths of
    the assets that were generated, oldest first. *)
Record world : Type := {
  fs : gmap string fnode;
  written : list string
}.

Definition os_path_exists (f : gmap string fnode) (path : string) : bool :=
  bool_decide (is_Some (f !! path)).

Fixpoint strip_prefix (pre s : string) : option string :=
  match pre, s with
  | EmptyString, _ => Some s
  | String a pre', String b s' => if Ascii.eqb a b then strip_prefix pre' s' else None
  | String _ _, EmptyString => None
  end.

Definition child_name (dir path : string) : option string :=
  match strip_prefix (if str_endswith dir "/" then dir else dir ++ "/") path with
  | Some name =>
      if String.eqb name "" || str_contains "/" name then None else Some name
  | None => None
  end.

(** [os.listdir(path)] *)
Definition os_listdir (f : gmap string fnode) (path : string) : result (list string) :=
  match f !! path with
  | Some FDir => Ok (omap (fun kv => child_name path (fst kv)) (map_to_list f))
  | Some (FFile _) => Raise NotADirectoryError
  | None => Raise FileNotFoundError
  end.

Fixpoint drop_slashes (l : list ascii) : list ascii :=
  match l with
  | c :: l' => if Ascii.eqb c "/" then drop_slashes l' else l
  | [] => []
  end.

Fixpoint drop_component (l : list ascii) : list ascii :=
  match l with
  | c :: l' => if Ascii.eqb c "/" then l else drop_component l'
  | [] => []
  end.

(** [os.path.dirname(path)]: everything up to the last slash, without the
    trailing slashes unless it is the root. *)
Definition os_path_dirname (path : string) : string :=
  let head := drop_component (rev (list_ascii_of_string path)) in
  match drop_slashes head with
  | [] => string_of_list_ascii (rev head)
  | h => string_of_list_ascii (rev h)
  end.

(** A new entry can be created where the parent is a directory; a relative
    name without a directory part lands in the working directory. *)
Definition can_create (f : gmap string fnode) (path : string) : bool :=
  let parent := os_path_dirname path in
  if String.eqb parent "" then true
  else match f !! parent with
       | Some FDir => true
       | _ => false
       end.

(** [os.mkdir(path)] for a path that does not exist. *)
Definition os_mkdir (path : string) (w : world) : result unit * world :=
  if can_create (fs w) path
  then (Ok tt, {| fs := <[path := FDir]> (fs w); written := written w |})
  else (Raise FileNotFoundError, w).

Definition dquote : string := String (ascii_of_nat 34) EmptyString.

(** ** WeatherImageSelector *)

Module WeatherImageSelector.

Record t : Type := {
  _image_dir : string;
  _mapping_file : string;
  _image_set : string;
  _color : string;
  _svg_dir : option string;
  _image_mappings : gmap Z (gmap string string);
  _initialized : bool
}.

Definition _is_image_dir (f : gmap string fnode) (path : string) : result bool :=
  if os_path_exists f path then
    do names <~ os_listdir f path;
    Ok (0 <? Z.of_nat (length (filter (fun n => str_endswith n ".png" = true) names)))
  else Ok false.

(** The loop over the lines of the mapping file, each line already split
    into its three stripped pieces with the first one converted by [int]. *)
Definition add_mapping (mappings : gmap Z (gmap string string))
    (row : Z * string * string) : gmap Z (gmap string string) :=
  let '(weather_id, tag, filename) := row in
  let mappings :=
    match mappings !! weather_id with
    | None => <[weather_id := ∅]> mappings
    | Some _ => mappings
    end in
  <[weather_id := <[tag := filename]> (default ∅ (mappings !! weather_id))]> mappings.

Definition load_mappings (rows : list (Z * string * string))
  : gmap Z (gmap string string) :=
  foldl add_mapping ∅ rows.

Definition has_image (self : t) (condition_id : Z) (condition_time : string) : bool :=
  if negb (_initialized self) then false
  else match _image_mappings self !! condition_id with
       | None => false
       | Some condition_map =>
           if bool_decide (condition_map !! condition_time = None)
              && bool_decide (condition_map !! "general" = None)
           then false
           else true
       end.

Section Libraries.

(** [webcolors]: [normalize_hex], then [name_to_hex]; [None] when both
    raise. *)
Variable webcolors_hex : string -> option string.

(** [cairosvg.svg2png] at 300 by 300: the bytes of the picture, or
    [None] when the document cannot be rendered. *)
Variable svg2png : string -> option string.

Definition get_hex (color : string) : result string :=
  match webcolors_hex color with
  | Some h => Ok h
  | None => Raise (SystemExit 1)
  end.

(** [rows] is the content of the mapping file as [add_mapping] takes it,
    [None] when opening it, [int] or an index raised. *)
Definition _init_images (self : t) (rows : option (list (Z * string * string)))
    (w : world) : result t * world :=
  let with_dir (path : string) (color : string) (w : world) :=
    match rows with
    | None => (Raise (SystemExit 1), w)
    | Some rows =>
        (Ok {| _image_dir := path;
               _mapping_file := _mapping_file self;
               _image_set := _image_set self;
               _color := color;
               _svg_dir := _svg_dir self;
               _image_mappings := load_mappings rows;
               _initialized := true |}, w)
    end in
  if negb (bool_decide (_image_set self ∈ ["light"; "dark"; "custom"])) then
    (Raise (SystemExit 1), w)
  else
    let path := os_path_join (_image_dir self) (_image_set self) in
    if String.eqb (_image_set self) "custom" then
      match get_hex (_color self) with
      | Raise e => (Raise e, w)
      | Ok color =>
          match _svg_dir self with
          | None => (Raise TypeError, w)
          | Some svg_dir =>
              if negb (os_path_exists (fs w) svg_dir) then (Raise (SystemExit 1), w)
              else
                let path := os_path_join (_image_dir self) color in
                if negb (os_path_exists (fs w) path) then
                  match os_mkdir path w with
                  | (Ok _, w') => with_dir path color w'
                  | (Raise e, w') => (Raise e, w')
                  end
                else with_dir path color w
          end
      end
    else
      match _is_image_dir (fs w) path with
      | Raise e => (Raise e, w)
      | Ok true => (Raise (SystemExit 1), w)
      | Ok false => with_dir path (_color self) w
      end.

Definition __init__ (config : Config) (rows : option (list (Z * string * string)))
    (w : world) : result t * world :=
  _init_images {| _image_dir := icons_image_dir config;
                  _mapping_file := icons_mapping_file config;
                  _image_set := icons_image_set config;
                  _color := icons_image_color config;
                  _svg_dir := icons_svg_dir config;
                  _image_mappings := ∅;
                  _initialized := false |} rows w.

Definition _maybe_generate_custom_image (self : t) (path filename : string)
    (w : world) : result unit * world :=
  if String.eqb (_image_set self) "custom" && negb (os_path_exists (fs w) path) then
    match _svg_dir self with
    | None => (Raise TypeError, w)
    | Some svg_dir =>
        match fs w !! os_path_join svg_dir (str_replace ".png" ".svg" filename) with
        | Some (FFile content) =>
            let old_style := "style=" ++ dquote in
            let new_style :=
              "style=" ++ dquote ++ "fill:" ++ _color self
                       ++ ";stroke:" ++ _color self ++ ";" in
            let new_svg := str_replace old_style new_style content in
            match svg2png new_svg with
            | Some png =>
                let out := os_path_join (_image_dir self) filename in
                if can_create (fs w) out
                then (Ok tt, {| fs := <[out := FFile png]> (fs w);
                                written := written w ++ [out] |})
                else (Raise FileNotFoundError, w)
            | None => (Raise RenderError, w)
            end
        | Some FDir => (Raise IsADirectoryError, w)
        | None => (Raise FileNotFoundError, w)
        end
    end
  else (Ok tt, w).

Definition get_unknown_image (self : t) (w : world) : result string * world :=
  let path := os_path_join (_image_dir self) "wi-na.png" in
  let (r, w') := _maybe_generate_custom_image self path "wi-na.png" w in
  (do _u <~ r; Ok path, w').

(** The result is [None] where the method returns Python's [None]. *)
Definition get_image (self : t) (condition_id : Z) (condition_time : string)
    (w : world) : result (option string) * world :=
  if negb (_initialized self) then (Ok None, w)
  else if negb (has_image self condition_id condition_time) then
    let (r, w') := get_unknown_image self w in
    (do path <~ r; Ok (Some path), w')
  else
    match _image_mappings self !! condition_id with
    | None => (Raise KeyError, w)
    | Some condition_map =>
        match condition_map !! condition_time with
        | None => (Raise KeyError, w)
        | Some filename =>
            let path := os_path_join (_image_dir self) filename in
            let (r, w') := _maybe_generate_custom_image self path filename w in
            (do _u <~ r; Ok (Some path), w')
        end
    end.

Definition get_icon (self : t) (name : string) (w : world) : result string * world :=
  let filename :=
    if String.eqb name "humidity" then "wi-humidity.png"
    else if String.eqb name "precipitation" then "wi-raindrops.png"
    else if String.eqb name "wind" then "wi-strong-wind.png"
    else if String.eqb name "precipitation_chance" then "wi-umbrella.png"
    else "wi-na.png" in
  let path := os_path_join (_image_dir self) filename in
  let (r, w') := _maybe_generate_custom_image self path filename w in
  (do _u <~ r; Ok path, w').

End Libraries.

End WeatherImageSelector.

(** ** WeatherDataFetcher *)

(** What one call of [update_data] meets outside the program: whether the
    probe of the well-known host answers, what [time.time()] returns at each
    of the three places that read it, and what each of the two documents is
    once fetched and decoded ([None] when [urlopen] or [json.loads] raises). *)
Record cycle : Type := {
  probe_ok : bool;
  clock_check : Q;
  clock_fetch : Q;
  clock_commit : Q;
  weather_response : option pyval;
  forecast_response : option pyval
}.

(** The requests a call sends, in order. *)
Inductive event : Type :=
  | Probe
  | Fetch (url : string).

Module WeatherDataFetcher.

Record t : Type := {
  weather : option Weather.t;
  forecasts : option (list Forecast.t);
  last_weather_update : Q;
  internet_active : bool;
  _weather_url : string;
  _forecast_url : string;
  _poll_interval_seconds : Z;
  _last_weather_fetch : Q
}.

Section Format.

(** [str.format] of a URL template with the four parameters of [__init__]:
    latitude, longitude, key and units. *)
Variable str_format : string -> string -> string -> string -> string -> string.

Definition __init__ (config : Config) : t :=
  let fmt template :=
    str_format template (location_latitude config) (location_longitude config)
               (weather_api_key config) (location_units config) in
  {| weather := None;
     forecasts := None;
     last_weather_update := -1;
     internet_active := false;
     _weather_url := fmt (weather_api_weather_url config);
     _forecast_url := fmt (weather_api_forecast_url config);
     _poll_interval_seconds := weather_api_poll_interval_seconds config;
     _last_weather_fetch := 0 |}.

End Format.

(** The decoded document, or [PNone] after an exception. *)
Definition _fetch_url (response : option pyval) : pyval :=
  match try_except (match response with
                    | Some v => Ok v
                    | None => Raise TypeError
                    end) with
  | Some v => v
  | None => PNone
  end.

Definition _parse_condition_time (icon_label : pyval) : result string :=
  do c <~ py_getitem icon_label (KInt (-1));
  if is_str c "d" then Ok "day"
  else if is_str c "n" then Ok "night"
  else Ok "general".

Definition get2 (v : pyval) (a b : string) : result pyval :=
  do x <~ py_getitem v (KStr a);
  py_getitem x (KStr b).

(** [v['weather'][0][k]] *)
Definition get_weather0 (v : pyval) (k : string) : result pyval :=
  do x <~ py_getitem v (KStr "weather");
  do y <~ py_getitem x (KInt 0);
  py_getitem y (KStr k).

Definition parse_forecast (forecast_data : pyval) : result Forecast.t :=
  do cid <~ get_weather0 forecast_data "id";
  do ctext <~ get_weather0 forecast_data "description";
  do icon <~ get_weather0 forecast_data "icon";
  do ctime <~ _parse_condition_time icon;
  do hum <~ get2 forecast_data "main" "humidity";
  do pop <~ py_getitem forecast_data (KStr "pop");
  do chance <~ py_mul100 pop;
  do tmp <~ get2 forecast_data "main" "temp";
  do dt <~ py_getitem forecast_data (KStr "dt");
  Ok {| Forecast.condition_id := cid;
        Forecast.condition_text := ctext;
        Forecast.condition_time := ctime;
        Forecast.humidity := hum;
        Forecast.precip_chance := chance;
        Forecast.temp := tmp;
        Forecast.timestamp := dt |}.

Fixpoint parse_forecast_loop (items : list pyval) (forecasts : list Forecast.t)
  : result (list Forecast.t) :=
  match items with
  | [] => Ok forecasts
  | forecast_data :: rest =>
      do forecast <~ parse_forecast forecast_data;
      parse_forecast_loop rest (forecasts ++ [forecast])
  end.

Definition _parse_forecasts (json_data : pyval) : option (list Forecast.t) :=
  try_except (
    do l <~ py_getitem json_data (KStr "list");
    do items <~ py_iter l;
    parse_forecast_loop items []).

(** [if key in json_data: precip += json_data[key]['1h']] *)
Definition add_precip (json_data : pyval) (key : string) (precip : pyval)
  : result pyval :=
  do present <~ py_contains key json_data;
  if present then
    do x <~ get2 json_data key "1h";
    match precip with
    | PNum a => py_add_num a x
    | _ => Raise TypeError
    end
  else Ok precip.

Definition _parse_current_weather (json_data : pyval) : option Weather.t :=
  try_except (
    do cid <~ get_weather0 json_data "id";
    do ctext <~ get_weather0 json_data "description";
    do icon <~ get_weather0 json_data "icon";
    do ctime <~ _parse_condition_time icon;
    do hum <~ get2 json_data "main" "humidity";
    do tmp <~ get2 json_data "main" "temp";
    do tz <~ py_getitem json_data (KStr "timezone");
    do wdir <~ get2 json_data "wind" "deg";
    do wspeed <~ get2 json_data "wind" "speed";
    do p1 <~ add_precip json_data "rain" (PNum 0);
    do p2 <~ add_precip json_data "snow" p1;
    Ok {| Weather.condition_id := cid;
          Weather.condition_text := ctext;
          Weather.condition_time := ctime;
          Weather.hourly_precip := p2;
          Weather.humidity := hum;
          Weather.temp := tmp;
          Weather.timezone := tz;
          Weather.wind_speed := wspeed;
          Weather.wind_dir := wdir |}).

Definition is_none (v : pyval) : bool :=
  match v with
  | PNone => true
  | _ => false
  end.

(** Truth value of the forecast list: [None] and [[]] are false. *)
Definition truthy_list {A} (l : option (list A)) : bool :=
  match l with
  | Some (_ :: _) => true
  | _ => false
  end.

(** Truth value of an object without [__bool__] or [__len__], or [None]. *)
Definition truthy_obj {A} (o : option A) : bool :=
  match o with
  | Some _ => true
  | None => false
  end.

(** The local [weather] of [_fetch_weather] after the first fetch. *)
Definition fetched_weather (io : cycle) : option Weather.t :=
  let weather_data := _fetch_url (weather_response io) in
  if negb (is_none weather_data) then _parse_current_weather weather_data else None.

(** The local [forecasts] of [_fetch_weather] after the second fetch. *)
Definition fetched_forecasts (io : cycle) : option (list Forecast.t) :=
  let forecast_data := _fetch_url (forecast_response io) in
  if negb (is_none forecast_data) then _parse_forecasts forecast_data else None.

Definition _fetch_weather (self : t) (io : cycle) : t * list event :=
  let last_fetch := clock_fetch io in
  let new_weather := fetched_weather io in
  let new_forecasts := fetched_forecasts io in
  let trace := [Fetch (_weather_url self); Fetch (_forecast_url self)] in
  if truthy_list new_forecasts && truthy_obj new_weather then
    ({| weather := new_weather;
        forecasts := new_forecasts;
        last_weather_update := clock_commit io;
        internet_active := internet_active self;
        _weather_url := _weather_url self;
        _forecast_url := _forecast_url self;
        _poll_interval_seconds := _poll_interval_seconds self;
        _last_weather_fetch := last_fetch |}, trace)
  else
    ({| weather := weather self;
        forecasts := forecasts self;
        last_weather_update := last_weather_update self;
        internet_active := internet_active self;
        _weather_url := _weather_url self;
        _forecast_url := _forecast_url self;
        _poll_interval_seconds := _poll_interval_seconds self;
        _last_weather_fetch := last_fetch |}, trace).

Definition _fetch_internet_status (self : t) (io : cycle) : t :=
  {| weather := weather self;
     forecasts := forecasts self;
     last_weather_update := last_weather_update self;
     internet_active := probe_ok io;
     _weather_url := _weather_url self;
     _forecast_url := _forecast_url self;
     _poll_interval_seconds := _poll_interval_seconds self;
     _last_weather_fetch := _last_weather_fetch self |}.

(** [a > b] on numbers. *)
Definition Qgtb (a b : Q) : bool := negb (Qle_bool a b).

Definition update_data (self : t) (io : cycle) : t * list event :=
  let self := _fetch_internet_status self io in
  if internet_active self
     && Qgtb (clock_check io)
             (_last_weather_fetch self + inject_Z (_poll_interval_seconds self))
  then
    let (self, trace) := _fetch_weather self io in
    (self, Probe :: trace)
  else (self, [Probe]).

(** Successive calls, one per tick of the display loop. *)
Fixpoint run (self : t) (ios : list cycle) : t * list event :=
  match ios with
  | [] => (self, [])
  | io :: rest =>
      let (self, trace) := update_data self io in
      let (self, trace') := run self rest in
      (self, (trace ++ trace')%list)
  end.

End WeatherDataFetcher.

(** ** What the display does with a forecast entry

    [WeatherDataDisplay._update_display] writes the precipitation chance of
    each of the first four entries with [format_percentage]; [print_display]
    prints every entry with [format_forecast]. *)
Definition display_precip_chance (formatter : WeatherFormatter.t)
    (forecast : Forecast.t) : result string :=
  WeatherFormatter.format_percentage formatter (Forecast.precip_chance forecast) "".

(** ** WeatherDataDisplay: the console dump

    [print_display], the mode of the program that needs no screen.  The
    result is the fetcher after its update, the lines printed, and how the
    call ended. *)

Module WeatherDataDisplay.

Section Console.

Variable format_2f : Q -> string.
Variable strftime : string -> Q -> result string.

(** [str(v)] for a value that is not a string. *)
Variable py_repr : pyval -> string.

(** ["%s" % v] *)
Definition py_format_s (v : pyval) : string :=
  match v with
  | PStr s => s
  | _ => py_repr v
  end.

(** [a + b] *)
Definition py_add (a b : pyval) : result pyval :=
  match a, b with
  | PStr x, PStr y => Ok (PStr (x ++ y))
  | PList x, PList y => Ok (PList (x ++ y))
  | (PNum _ | PBool _), (PNum _ | PBool _) =>
      do x <~ WeatherFormatter.py_num a;
      do y <~ WeatherFormatter.py_num b;
      Ok (PNum (x + y))
  | _, _ => Raise TypeError
  end.

(** The body of the loop over the forecasts: three lines per entry. *)
Definition print_forecast (formatter : WeatherFormatter.t) (weather : Weather.t)
    (forecast : Forecast.t) : list string * result unit :=
  match py_add (Forecast.timestamp forecast) (Weather.timezone weather) with
  | Raise e => ([], Raise e)
  | Ok ts =>
      match WeatherFormatter.format_datetime strftime formatter ts with
      | Raise e => ([], Raise e)
      | Ok date =>
          let l1 := "------ " ++ date ++ ":-------" in
          match WeatherFormatter.format_forecast formatter forecast with
          | Raise e => ([l1], Raise e)
          | Ok text =>
              ([l1; text; "C: " ++ py_format_s (Forecast.condition_text forecast)], Ok tt)
          end
      end
  end.

Fixpoint print_forecasts (formatter : WeatherFormatter.t) (weather : Weather.t)
    (forecasts : list Forecast.t) : list string * result unit :=
  match forecasts with
  | [] => ([], Ok tt)
  | forecast :: rest =>
      match print_forecast formatter weather forecast with
      | (out, Ok _) =>
          let (out', r) := print_forecasts formatter weather rest in
          (app out out', r)
      | (out, Raise e) => (out, Raise e)
      end
  end.

Definition print_display (fetcher : WeatherDataFetcher.t) (formatter : WeatherFormatter.t)
    (io : cycle) : WeatherDataFetcher.t * list string * result unit :=
  let fetcher := fst (WeatherDataFetcher.update_data fetcher io) in
  let status :=
    "Internet Status: "
    ++ (if WeatherDataFetcher.internet_active fetcher then "OK" else "DOWN") in
  let last_update := WeatherDataFetcher.last_weather_update fetcher in
  if WeatherDataFetcher.Qgtb last_update 0 then
    match WeatherFormatter.format_datetime strftime formatter (PNum last_update) with
    | Raise e => (fetcher, [status], Raise e)
    | Ok date =>
        let head := [status; "Last weather update: " ++ date ++ " ";
                     "------Current Conditions------"] in
        match WeatherDataFetcher.weather fetcher with
        | None => (fetcher, head, Raise (AttributeError "temp"))
        | Some weather =>
            match WeatherFormatter.format_weather format_2f formatter weather with
            | Raise e => (fetcher, head, Raise e)
            | Ok text =>
                let condition :=
                  "Condition: " ++ py_format_s (Weather.condition_text weather) in
                let out := app head [text; condition; "------Forecast---------"] in
                match WeatherDataFetcher.forecasts fetcher with
                | None => (fetcher, out, Raise TypeError)
                | Some forecasts =>
                    let (out', r) := print_forecasts formatter weather forecasts in
                    (fetcher, app out out', r)
                end
            end
        end
    end
  else (fetcher, [status; "Unable to fetch weather data."], Ok tt).

End Console.

End WeatherDataDisplay.

(** ** Derived notions *)

(** What the three lookup methods of the resolver do once they hold a file
    name. *)
Definition resolve (svg2png : string -> option string) (self : WeatherImageSelector.t)
    (filename : string) (w : world) : result string * world :=
  let path := os_path_join (WeatherImageSelector._image_dir self) filename in
  let (r, w') :=
    WeatherImageSelector._maybe_generate_custom_image svg2png self path filename w in
  (do _u <~ r; Ok path, w').

(** The test that opens [_maybe_generate_custom_image]. *)
Definition generates (self : WeatherImageSelector.t) (path : string) (w : world) : bool :=
  String.eqb (WeatherImageSelector._image_set self) "custom"
  && negb (os_path_exists (fs w) path).

(** The SVG text that [_maybe_generate_custom_image] hands to the
    rasterizer: the template with every style attribute opened by the fill
    and the stroke of the colour. *)
Definition recoloured (color content : string) : string :=
  str_replace ("style=" ++ dquote)
              ("style=" ++ dquote ++ "fill:" ++ color ++ ";stroke:" ++ color ++ ";")
              content.

(** The world after the asset at [path] was generated with content [png]. *)
Definition with_asset (path png : string) (w : world) : world :=
  {| fs := <[path := FFile png]> (fs w); written := (written w ++ [path])%list |}.

(** The weather state of the fetcher: what the display reads. *)
Definition weather_state (self : WeatherDataFetcher.t)
  : option Weather.t * option (list Forecast.t) * Q :=
  (WeatherDataFetcher.weather self, WeatherDataFetcher.forecasts self,
   WeatherDataFetcher.last_weather_update self).

(** The gate of [update_data]. *)
Definition due (self : WeatherDataFetcher.t) (io : cycle) : bool :=
  probe_ok io
  && WeatherDataFetcher.Qgtb (clock_check io)
       (WeatherDataFetcher._last_weather_fetch self
        + inject_Z (WeatherDataFetcher._poll_interval_seconds self)).

(** The condition of the commit in [_fetch_weather]. *)
Definition commits (io : cycle) : bool :=
  WeatherDataFetcher.truthy_list (WeatherDataFetcher.fetched_forecasts io)
  && WeatherDataFetcher.truthy_obj (WeatherDataFetcher.fetched_weather io).

(** [mappings[weather_id][tag]] as an option. *)
Definition lookup_mapping (mappings : gmap Z (gmap string string)) (weather_id : Z)
    (tag : string) : option string :=
  match mappings !! weather_id with
  | Some condition_map => condition_map !! tag
  | None => None
  end.

(** ** Sample inputs *)

Definition sample_config (units image_set : string) : Config := {|
  location_time_format := "%H:%M";
  location_date_format := "%c";
  location_units := units;
  location_latitude := "48.85";
  location_longitude := "2.35";
  icons_image_dir := "icons";
  icons_mapping_file := "mappings.csv";
  icons_image_set := image_set;
  icons_image_color := "white";
  icons_svg_dir := Some "svg";
  weather_api_key := "k";
  weather_api_weather_url := "http://api/weather";
  weather_api_forecast_url := "http://api/forecast";
  weather_api_poll_interval_seconds := 600
|}.

Definition sample_conditions (icon : string) : (string * pyval) :=
  ("weather", PList [PDict [("id", PNum 800); ("description", PStr "clear sky");
                            ("icon", PStr icon)]]).

Definition sample_weather_doc : pyval :=
  PDict [sample_conditions "01d";
         ("main", PDict [("humidity", PNum 40); ("temp", PNum 20)]);
         ("timezone", PNum 3600);
         ("wind", PDict [("deg", PNum 180); ("speed", PNum (36 # 10))]);
         ("rain", PDict [("1h", PNum 2)])].

Definition sample_forecast_item (pop : Q) : pyval :=
  PDict [sample_conditions "01n";
         ("main", PDict [("humidity", PNum 40); ("temp", PNum 20)]);
         ("pop", PNum pop);
         ("dt", PNum 1700000000)].

Definition sample_forecast_doc (pop : Q) : pyval :=
  PDict [("list", PList [sample_forecast_item pop])].

Definition sample_hex (color : string) : option string :=
  if String.eqb color "white" then Some "#ffffff" else None.

Definition sample_png (svg : string) : option string := Some ("PNG " ++ svg).

Definition no_writes (f : gmap string fnode) : world := {| fs := f; written := [] |}.

(** The light theme is installed with one icon. *)
Definition assets_world : world :=
  no_writes (<["icons/light/wi-na.png" := FFile "PNG"]>
             (<["icons/light" := FDir]> (<["icons" := FDir]> ∅))).

(** The directory of the light theme is there and holds no icon. *)
Definition bare_world : world :=
  no_writes (<["icons/light" := FDir]> (<["icons" := FDir]> ∅)).

(** One template, for the sunny icon, and none for the unknown condition. *)
Definition template_world : world :=
  no_writes (<["svg/wi-day-sunny.svg" := FFile ("<svg style=" ++ dquote ++ "x" ++ dquote ++ "/>")]>
             (<["svg" := FDir]> (<["icons" := FDir]> ∅))).

Definition sample_rows : list (Z * string * string) :=
  [(800, "day", "wi-day-sunny.png"); (801, "general", "wi-cloudy.png")].

Definition light_selector : WeatherImageSelector.t := {|
  WeatherImageSelector._image_dir := "icons/light";
  WeatherImageSelector._mapping_file := "mappings.csv";
  WeatherImageSelector._image_set := "light";
  WeatherImageSelector._color := "white";
  WeatherImageSelector._svg_dir := Some "svg";
  WeatherImageSelector._image_mappings := WeatherImageSelector.load_mappings sample_rows;
  WeatherImageSelector._initialized := true
|}.

Definition custom_selector : WeatherImageSelector.t := {|
  WeatherImageSelector._image_dir := "icons/#ffffff";
  WeatherImageSelector._mapping_file := "mappings.csv";
  WeatherImageSelector._image_set := "custom";
  WeatherImageSelector._color := "#ffffff";
  WeatherImageSelector._svg_dir := Some "svg";
  WeatherImageSelector._image_mappings := WeatherImageSelector.load_mappings sample_rows;
  WeatherImageSelector._initialized := true
|}.

(** The world the custom resolver starts in: [__init__] has made the
    directory of the colour. *)
Definition custom_world : world :=
  no_writes (<["icons/#ffffff" := FDir]> (fs template_world)).

(** The custom resolver's world with a template for the unknown-condition
    icon as well. *)
Definition unknown_template_world : world :=
  no_writes (<["svg/wi-na.svg" := FFile ("<svg style=" ++ dquote ++ "y" ++ dquote ++ "/>")]>
             (fs custom_world)).

Definition sample_format (template latitude longitude key units : string) : string :=
  template.

Definition sample_fetcher : WeatherDataFetcher.t :=
  WeatherDataFetcher.__init__ sample_format (sample_config "metric" "light").

(** A call at time [t] that finds the host reachable and, if it fetches,
    starts at [t] and would commit at [t + 3]. *)
Definition sample_cycle (t : Q) (weather_doc forecast_doc : option pyval) : cycle := {|
  probe_ok := true;
  clock_check := t;
  clock_fetch := t;
  clock_commit := t + 3;
  weather_response := weather_doc;
  forecast_response := forecast_doc
|}.

Definition good_cycle (t : Q) : cycle :=
  sample_cycle t (Some sample_weather_doc) (Some (sample_forecast_doc (1 # 2))).

Definition empty_forecast_cycle (t : Q) : cycle :=
  sample_cycle t (Some sample_weather_doc) (Some (PDict [("list", PList [])])).

Definition snowy_weather_doc : pyval :=
  PDict [sample_conditions "13d";
         ("main", PDict [("humidity", PNum 90); ("temp", PNum 1)]);
         ("timezone", PNum 3600);
         ("wind", PDict [("deg", PNum 10); ("speed", PNum 2)]);
         ("rain", PDict [("1h", PNum (1 # 2))]);
         ("snow", PDict [("1h", PNum (3 # 2))])].

Definition rain_3h_weather_doc : pyval :=
  PDict [sample_conditions "10d";
         ("main", PDict [("humidity", PNum 90); ("temp", PNum 12)]);
         ("timezone", PNum 3600);
         ("wind", PDict [("deg", PNum 10); ("speed", PNum 2)]);
         ("rain", PDict [("3h", PNum 4)])].

Definition offline_cycle (t : Q) : cycle := {|
  probe_ok := false;
  clock_check := t;
  clock_fetch := t;
  clock_commit := t + 3;
  weather_response := Some sample_weather_doc;
  forecast_response := Some (sample_forecast_doc (1 # 2))
|}.

Definition sample_weather : Weather.t := {|
  Weather.condition_id := PNum 800;
  Weather.condition_text := PStr "clear sky";
  Weather.condition_time := "day";
  Weather.hourly_precip := PNum 2;
  Weather.humidity := PNum 40;
  Weather.temp := PNum 20;
  Weather.timezone := PNum 3600;
  Weather.wind_speed := PNum (36 # 10);
  Weather.wind_dir := PNum 180
|}.

Definition sample_2f (q : Q) : string := str_of_Z (Qtrunc q) ++ ".00".

Definition sample_strftime (pattern : string) (q : Q) : result string :=
  Ok (pattern ++ "@" ++ str_of_Z (Qtrunc q)).

Definition sample_repr (v : pyval) : string := "?".

(** * Properties *)

(** ** Rounding *)




(** ** The formatter *)




(** C7. On a formatter built with metric units no wind string and so no
    compass label is produced: for every speed and every degree, 0, 359 and
    180 among them, [format_wind_speed] raises [AttributeError], since
    [__init__] never set [_wind_unit]; on one built with imperial units the
    three degrees give N, N and S. *)
Theorem wind_label_raises_on_metric (speed : pyval) (label : string) (d : Q) :
  WeatherFormatter.format_wind_speed
    (WeatherFormatter.__init__ (sample_config "metric" "light")) speed (PNum d) label
  = Raise (AttributeError "_wind_unit")
  /\ WeatherFormatter.format_wind_speed
       (WeatherFormatter.__init__ (sample_config "metric" "light")) (PNum 5) (PNum 0) ""
     = Raise (AttributeError "_wind_unit")
  /\ WeatherFormatter.format_wind_speed
       (WeatherFormatter.__init__ (sample_config "metric" "light")) (PNum 5) (PNum 359) ""
     = Raise (AttributeError "_wind_unit")
  /\ WeatherFormatter.format_wind_speed
       (WeatherFormatter.__init__ (sample_config "metric" "light")) (PNum 5) (PNum 180) ""
     = Raise (AttributeError "_wind_unit")
  /\ WeatherFormatter.format_wind_speed
       (WeatherFormatter.__init__ (sample_config "imperial" "light")) (PNum 5) (PNum 0) ""
     = Ok " 5 mph N"
  /\ WeatherFormatter.format_wind_speed
       (WeatherFormatter.__init__ (sample_config "imperial" "light")) (PNum 5) (PNum 359) ""
     = Ok " 5 mph N"
  /\ WeatherFormatter.format_wind_speed
       (WeatherFormatter.__init__ (sample_config "imperial" "light")) (PNum 5) (PNum 180) ""
     = Ok " 5 mph S".
Proof.
  repeat split.
Qed.

(** Between two table entries the label changes at the odd multiples of
    11.25 degrees, where the tie goes to the even index. *)
Example wind_label_ties :
  map (fun d => WeatherFormatter.wind_index d mod 16)
      [(1125 # 100)%Q; (1126 # 100)%Q; (3375 # 100)%Q; (34875 # 100)%Q; (-10)%Q; 720%Q]
  = [0; 1; 2; 0; 0; 0].
Proof. vm_compute. reflexivity. Qed.

Lemma metric_has_no_wind_unit (config : Config) :
  location_units config = "metric" ->
  WeatherFormatter._wind_unit (WeatherFormatter.__init__ config) = None
  /\ WeatherFormatter.wind_unit (WeatherFormatter.__init__ config) = "m/s".
Proof.
  intros H. unfold WeatherFormatter.__init__. rewrite H. simpl. auto.
Qed.

Lemma format_wind_speed_metric (config : Config) (speed degree : pyval) (label : string) :
  location_units config = "metric" ->
  forall s, WeatherFormatter.format_wind_speed (WeatherFormatter.__init__ config)
              speed degree label <> Ok s.
Proof.
  intros H s. unfold WeatherFormatter.format_wind_speed.
  destruct (metric_has_no_wind_unit config H) as [-> _].
  destruct (WeatherFormatter.py_num degree); cbn; discriminate.
Qed.

(** C8. With metric units the constructor stores the suffix m/s under
    [wind_unit] and leaves [_wind_unit] unset, so formatting any speed at any
    numeric degree raises [AttributeError]; with imperial units the same call
    returns the string with the suffix mph. *)
Theorem wind_unit_suffix (speed : pyval) (d : Q) (label : string) :
  WeatherFormatter.format_wind_speed
    (WeatherFormatter.__init__ (sample_config "metric" "light")) speed (PNum d) label
  = Raise (AttributeError "_wind_unit")
  /\ WeatherFormatter.wind_unit (WeatherFormatter.__init__ (sample_config "metric" "light"))
     = "m/s"
  /\ WeatherFormatter.format_wind_speed
       (WeatherFormatter.__init__ (sample_config "imperial" "light")) (PNum 5) (PNum 180) ""
     = Ok " 5 mph S".
Proof.
  repeat split.
Qed.

(** C9. A provider [pop] of 0.5 is scaled twice on the way to the console:
    the parser stores it as 50 and [format_forecast] multiplies the stored
    value by 100 once more and prints 5000%, outside the range of 0 to 100;
    the display path, which formats the stored value as it is, shows 50%.
    Every product here is exact in binary floating point. *)
Theorem forecast_precip_chance_scaled_twice :
  exists forecast : Forecast.t,
    WeatherDataFetcher._parse_forecasts (sample_forecast_doc (1 # 2)) = Some [forecast]
    /\ Forecast.precip_chance forecast = PNum ((1 # 2) * 100)
    /\ WeatherFormatter.format_forecast
         (WeatherFormatter.__init__ (sample_config "imperial" "light")) forecast
       = Ok ("T: 20 °F" ++ WeatherFormatter.newline ++ "H: 40%"
             ++ WeatherFormatter.newline ++ "P: 5000%")
    /\ display_precip_chance
         (WeatherFormatter.__init__ (sample_config "imperial" "light")) forecast
       = Ok " 50%".
Proof.
  eexists. split; [reflexivity |]. repeat split.
Qed.

(** The stored value is the provider's [pop] times 100 for every entry the
    parser accepts. *)
Lemma parse_forecast_scales_pop (forecast_data : pyval) (forecast : Forecast.t) :
  WeatherDataFetcher.parse_forecast forecast_data = Ok forecast ->
  exists pop, py_getitem forecast_data (KStr "pop") = Ok pop
              /\ py_mul100 pop = Ok (Forecast.precip_chance forecast).
Proof.
  unfold WeatherDataFetcher.parse_forecast. intros H.
  repeat match type of H with
         | rbind ?m _ = Ok _ => destruct m eqn:?; cbn [rbind] in H; [| discriminate]
         end.
  injection H as <-. cbn. eauto.
Qed.

(** ** Paths *)

Lemma list_ascii_of_string_app (x y : string) :
  list_ascii_of_string (x ++ y) = (list_ascii_of_string x ++ list_ascii_of_string y)%list.
Proof. induction x as [| c x IH]; simpl; [reflexivity | now rewrite IH]. Qed.

Lemma str_endswith_rev_app (l m : list ascii) : str_endswith_rev l (l ++ m) = true.
Proof.
  induction l as [| c l IH]; simpl; [reflexivity |].
  now rewrite Ascii.eqb_refl.
Qed.

Lemma str_endswith_app (x b : string) : str_endswith (x ++ b) b = true.
Proof.
  unfold str_endswith. rewrite list_ascii_of_string_app, rev_app_distr.
  apply str_endswith_rev_app.
Qed.

Lemma os_path_join_relative (a b : string) :
  str_startswith b "/" = false ->
  exists dir, os_path_join a b = dir ++ b.
Proof.
  intros H. unfold os_path_join. rewrite H.
  destruct (String.eqb a "" || str_endswith a "/").
  - now exists a.
  - exists (a ++ "/"). clear. induction a as [| c a IH]; [reflexivity |].
    change (String c (a ++ "/" ++ b) = String c ((a ++ "/") ++ b)). now f_equal.
Qed.

Lemma os_path_join_endswith (a b : string) :
  str_startswith b "/" = false -> str_endswith (os_path_join a b) b = true.
Proof.
  intros H. destruct (os_path_join_relative a b H) as [dir ->].
  apply str_endswith_app.
Qed.

(** ** The icon resolver *)

Section Resolver.

Import WeatherImageSelector.

Variable svg2png : string -> option string.

Lemma os_path_exists_insert (f : gmap string fnode) (path : string) (n : fnode) :
  os_path_exists (<[path := n]> f) path = true.
Proof.
  unfold os_path_exists. apply bool_decide_eq_true. rewrite lookup_insert_eq. eauto.
Qed.

Lemma resolve_no_generation (self : t) (filename : string) (w : world) :
  generates self (os_path_join (_image_dir self) filename) w = false ->
  resolve svg2png self filename w = (Ok (os_path_join (_image_dir self) filename), w).
Proof.
  unfold generates, resolve, _maybe_generate_custom_image. intros ->. reflexivity.
Qed.

Lemma resolve_ok (self : t) (filename path : string) (w w1 : world) :
  resolve svg2png self filename w = (Ok path, w1) ->
  path = os_path_join (_image_dir self) filename
  /\ (if generates self path w
      then written w1 = (written w ++ [path])%list
           /\ os_path_exists (fs w1) path = true
      else w1 = w).
Proof.
  unfold resolve, generates, _maybe_generate_custom_image.
  set (p := os_path_join (_image_dir self) filename).
  destruct (String.eqb (_image_set self) "custom" && negb (os_path_exists (fs w) p)) eqn:Hg.
  - destruct (_svg_dir self) as [svg_dir |]; [| cbn; discriminate].
    destruct (fs w !! _) as [[content |] |]; try (cbn; discriminate).
    destruct (svg2png _) as [png |]; [| cbn; discriminate].
    destruct (can_create (fs w) p); [| cbn; discriminate].
    cbn. intros H. injection H as <- <-. rewrite Hg. cbn.
    split; [reflexivity |]. split; [reflexivity |]. apply os_path_exists_insert.
  - cbn. intros H. injection H as <- <-. rewrite Hg. auto.
Qed.

Lemma resolve_raise (self : t) (filename : string) (w w1 : world) (e : exn) :
  resolve svg2png self filename w = (Raise e, w1) -> w1 = w.
Proof.
  unfold resolve, _maybe_generate_custom_image.
  repeat match goal with
         | |- context [if ?b then _ else _] => destruct b
         | |- context [match ?o with Some _ => _ | None => _ end] => destruct o
         | |- context [match ?n with FFile _ => _ | FDir => _ end] => destruct n
         end; cbn; intros H; try discriminate; now injection H.
Qed.

(** Once a lookup has returned, the asset is on disk in custom mode, and
    the same lookup returns the same path without touching anything. *)
Lemma resolve_again (self : t) (filename path : string) (w w1 : world) :
  resolve svg2png self filename w = (Ok path, w1) ->
  resolve svg2png self filename w1 = (Ok path, w1).
Proof.
  intros H. destruct (resolve_ok _ _ _ _ _ H) as [-> Hg].
  apply resolve_no_generation.
  destruct (generates self _ w) eqn:Hgen.
  - destruct Hg as [_ Hex]. unfold generates. rewrite Hex. apply andb_false_r.
  - now subst w1.
Qed.

Lemma get_unknown_image_resolve (self : t) (w : world) :
  get_unknown_image svg2png self w = resolve svg2png self "wi-na.png" w.
Proof. reflexivity. Qed.

Lemma get_icon_resolve (self : t) (name : string) (w : world) :
  exists filename, get_icon svg2png self name w = resolve svg2png self filename w.
Proof. eexists. reflexivity. Qed.

(** [get_image] away from the mapping table. *)
Lemma get_image_unknown (self : t) (condition_id : Z) (condition_time : string) (w : world) :
  _initialized self = true ->
  has_image self condition_id condition_time = false ->
  get_image svg2png self condition_id condition_time w
  = (let (r, w') := resolve svg2png self "wi-na.png" w in (do path <~ r; Ok (Some path), w')).
Proof.
  intros Hi Hh. unfold get_image. rewrite Hi, Hh. reflexivity.
Qed.

(** [get_image] on an entry of the mapping table. *)
Lemma get_image_mapped (self : t) (condition_id : Z) (condition_time filename : string)
    (condition_map : gmap string string) (w : world) :
  _initialized self = true ->
  _image_mappings self !! condition_id = Some condition_map ->
  condition_map !! condition_time = Some filename ->
  get_image svg2png self condition_id condition_time w
  = (let (r, w') := resolve svg2png self filename w in (do path <~ r; Ok (Some path), w')).
Proof.
  intros Hi Hm Hf. unfold get_image, has_image. rewrite Hi, Hm, Hf. cbn.
  unfold resolve. destruct (_maybe_generate_custom_image _ _ _ _ _) as [[u | e] w']; reflexivity.
Qed.

(** The fallback that [has_image] accepts and [get_image] does not take. *)
Lemma get_image_general_only (self : t) (condition_id : Z) (condition_time filename : string)
    (condition_map : gmap string string) (w : world) :
  _initialized self = true ->
  _image_mappings self !! condition_id = Some condition_map ->
  condition_map !! "general" = Some filename ->
  condition_map !! condition_time = None ->
  has_image self condition_id condition_time = true
  /\ get_image svg2png self condition_id condition_time w = (Raise KeyError, w).
Proof.
  intros Hi Hm Hg Hn. unfold get_image, has_image. rewrite Hi, Hm, Hg, Hn. cbn. auto.
Qed.

(** Every lookup is a [resolve] of some file name, or fails before it;
    which of the three does not depend on the file system. *)
Lemma get_image_cases (self : t) (condition_id : Z) (condition_time : string) :
  (forall w, get_image svg2png self condition_id condition_time w = (Ok None, w))
  \/ (forall w, get_image svg2png self condition_id condition_time w = (Raise KeyError, w))
  \/ exists filename, forall w,
       get_image svg2png self condition_id condition_time w
       = (let (r, w') := resolve svg2png self filename w in (do path <~ r; Ok (Some path), w')).
Proof.
  destruct (_initialized self) eqn:Hi.
  - destruct (has_image self condition_id condition_time) eqn:Hh.
    + destruct (_image_mappings self !! condition_id) as [m |] eqn:Hm.
      * destruct (m !! condition_time) as [f |] eqn:Hf.
        -- right. right. exists f. intros w. eapply get_image_mapped; eauto.
        -- right. left. intros w. unfold get_image. now rewrite Hi, Hh, Hm, Hf.
      * right. left. intros w. unfold get_image. now rewrite Hi, Hh, Hm.
    + right. right. exists "wi-na.png". intros w. now apply get_image_unknown.
  - left. intros w. unfold get_image. now rewrite Hi.
Qed.

Lemma has_image_unmapped (self : t) (condition_id : Z) (condition_time : string) :
  _image_mappings self !! condition_id = None ->
  has_image self condition_id condition_time = false.
Proof.
  intros H. unfold has_image. rewrite H. now destruct (_initialized self).
Qed.

End Resolver.

(** C2. A code whose mapping holds only a [general] entry passes
    [has_image] for the tag [day], and the lookup that follows indexes the
    mapping with [day] itself and raises [KeyError]; only the tag [general]
    reaches the asset. *)
Theorem general_fallback_not_taken :
  exists self : WeatherImageSelector.t,
    fst (WeatherImageSelector.__init__ sample_hex (sample_config "metric" "light")
           (Some sample_rows) bare_world) = Ok self
    /\ WeatherImageSelector._image_mappings self !! 801 = Some {["general" := "wi-cloudy.png"]}
    /\ WeatherImageSelector.has_image self 801 "day" = true
    /\ WeatherImageSelector.get_image sample_png self 801 "general" bare_world
       = (Ok (Some "icons/light/wi-cloudy.png"), bare_world)
    /\ WeatherImageSelector.get_image sample_png self 801 "day" bare_world
       = (Raise KeyError, bare_world).
Proof.
  eexists. split; [vm_compute; reflexivity |].
  repeat split; vm_compute; reflexivity.
Qed.

(** What a lookup that generates does, step by step. *)
Lemma resolve_generation (svg2png : string -> option string)
    (self : WeatherImageSelector.t) (filename : string) (w : world) :
  let path := os_path_join (WeatherImageSelector._image_dir self) filename in
  generates self path w = true ->
  resolve svg2png self filename w
  = match WeatherImageSelector._svg_dir self with
    | None => (Raise TypeError, w)
    | Some svg_dir =>
        match fs w !! os_path_join svg_dir (str_replace ".png" ".svg" filename) with
        | Some (FFile content) =>
            match svg2png (recoloured (WeatherImageSelector._color self) content) with
            | Some png =>
                if can_create (fs w) path
                then (Ok path, with_asset path png w)
                else (Raise FileNotFoundError, w)
            | None => (Raise RenderError, w)
            end
        | Some FDir => (Raise IsADirectoryError, w)
        | None => (Raise FileNotFoundError, w)
        end
    end.
Proof.
  intros path Hg. unfold resolve, WeatherImageSelector._maybe_generate_custom_image.
  fold path. fold (generates self path w). rewrite Hg.
  destruct (WeatherImageSelector._svg_dir self) as [svg_dir |]; [| reflexivity].
  destruct (fs w !! _) as [[content |] |]; try reflexivity.
  fold (recoloured (WeatherImageSelector._color self) content).
  destruct (svg2png _) as [png |]; [| reflexivity].
  destruct (can_create (fs w) path); reflexivity.
Qed.

Lemma resolve_generated (svg2png : string -> option string)
    (self : WeatherImageSelector.t) (filename : string) (w w1 : world) (p : string) :
  let path := os_path_join (WeatherImageSelector._image_dir self) filename in
  generates self path w = true ->
  resolve svg2png self filename w = (Ok p, w1) ->
  exists svg_dir content png,
    WeatherImageSelector._svg_dir self = Some svg_dir
    /\ fs w !! os_path_join svg_dir (str_replace ".png" ".svg" filename)
       = Some (FFile content)
    /\ svg2png (recoloured (WeatherImageSelector._color self) content) = Some png
    /\ can_create (fs w) path = true
    /\ p = path
    /\ w1 = with_asset path png w.
Proof.
  intros path Hg. rewrite (resolve_generation svg2png self filename w Hg). fold path.
  destruct (WeatherImageSelector._svg_dir self) as [svg_dir |]; [| discriminate].
  destruct (fs w !! _) as [[content |] |] eqn:Ht; try discriminate.
  destruct (svg2png _) as [png |] eqn:Hpng; [| discriminate].
  destruct (can_create (fs w) path) eqn:Hc; [| discriminate].
  intros H. injection H as <- <-. exists svg_dir, content, png. auto 10.
Qed.

(** The claim of C4 fails in custom mode: the resolver starts, the code 999
    is not in the table, there is no template for the unknown-condition
    icon, and the lookup raises. *)
Lemma unknown_image_raises_without_template :
  exists (self : WeatherImageSelector.t) (w : world),
    WeatherImageSelector.__init__ sample_hex (sample_config "metric" "custom")
      (Some sample_rows) template_world = (Ok self, w)
    /\ WeatherImageSelector._image_mappings self !! 999 = None
    /\ WeatherImageSelector.get_image sample_png self 999 "day" w
       = (Raise FileNotFoundError, w).
Proof.
  do 2 eexists. split; [vm_compute; reflexivity |].
  split; vm_compute; reflexivity.
Qed.

(** C4, amended. For a code absent from the mapping table the lookup of a
    started resolver is a lookup of the unknown-condition asset, whose path
    ends in wi-na.png.  Outside custom mode, and in custom mode when the
    asset is already on disk, it returns that path and changes nothing.
    Whenever it returns, it returns that path.  It raises only in custom mode
    with the asset missing, and then changes nothing.  In custom mode with
    the asset missing, a lookup that returns has read the template wi-na.svg
    in the SVG directory, rendered it recoloured, and written the result at
    the path, which is the only change; and it does return so whenever the
    template is a file, the rasterizer renders it and the directory of the
    path is there. *)
Theorem unknown_image_for_unmapped_code (svg2png : string -> option string)
    (self : WeatherImageSelector.t) (condition_id : Z) (condition_time : string) (w : world) :
  WeatherImageSelector._initialized self = true ->
  WeatherImageSelector._image_mappings self !! condition_id = None ->
  let path := os_path_join (WeatherImageSelector._image_dir self) "wi-na.png" in
  str_endswith path "wi-na.png" = true
  /\ (String.eqb (WeatherImageSelector._image_set self) "custom" = false
      \/ os_path_exists (fs w) path = true ->
      WeatherImageSelector.get_image svg2png self condition_id condition_time w
      = (Ok (Some path), w))
  /\ (forall r w', WeatherImageSelector.get_image svg2png self condition_id condition_time w
                   = (Ok r, w') -> r = Some path)
  /\ (forall e w', WeatherImageSelector.get_image svg2png self condition_id condition_time w
                   = (Raise e, w') ->
                   WeatherImageSelector._image_set self = "custom"
                   /\ os_path_exists (fs w) path = false /\ w' = w)
  /\ (WeatherImageSelector._image_set self = "custom" ->
      os_path_exists (fs w) path = false ->
      (forall r w', WeatherImageSelector.get_image svg2png self condition_id condition_time w
                    = (Ok r, w') ->
                    exists svg_dir content png,
                      WeatherImageSelector._svg_dir self = Some svg_dir
                      /\ fs w !! os_path_join svg_dir "wi-na.svg" = Some (FFile content)
                      /\ svg2png (recoloured (WeatherImageSelector._color self) content)
                         = Some png
                      /\ w' = {| fs := <[path := FFile png]> (fs w);
                                 written := (written w ++ [path])%list |})
      /\ (forall svg_dir content png,
            WeatherImageSelector._svg_dir self = Some svg_dir ->
            fs w !! os_path_join svg_dir "wi-na.svg" = Some (FFile content) ->
            svg2png (recoloured (WeatherImageSelector._color self) content) = Some png ->
            can_create (fs w) path = true ->
            WeatherImageSelector.get_image svg2png self condition_id condition_time w
            = (Ok (Some path),
               {| fs := <[path := FFile png]> (fs w);
                  written := (written w ++ [path])%list |}))).
Proof.
  intros Hi Hm path.
  pose proof (get_image_unknown svg2png self condition_id condition_time w Hi
                (has_image_unmapped self condition_id condition_time Hm)) as Hget.
  split; [now apply os_path_join_endswith |].
  split; [| split; [| split]].
  - intros Hno. rewrite Hget, resolve_no_generation; [reflexivity |].
    unfold generates. fold path. destruct Hno as [-> | ->]; [reflexivity | apply andb_false_r].
  - intros r w' H. rewrite Hget in H.
    destruct (resolve svg2png self "wi-na.png" w) as [[p | e] w2] eqn:Hr; cbn in H; [| discriminate].
    injection H as <- <-. destruct (resolve_ok _ _ _ _ _ _ Hr) as [-> _]. reflexivity.
  - intros e w' H. rewrite Hget in H.
    destruct (resolve svg2png self "wi-na.png" w) as [[p | e'] w2] eqn:Hr; cbn in H; [discriminate |].
    injection H as <- <-.
    pose proof (resolve_raise _ _ _ _ _ _ Hr) as ->.
    destruct (generates self path w) eqn:Hg.
    + unfold generates in Hg. apply andb_true_iff in Hg as [Hc He].
      apply String.eqb_eq in Hc. apply negb_true_iff in He. auto.
    + unfold path in Hg. rewrite (resolve_no_generation _ _ _ _ Hg) in Hr. discriminate.
  - intros Hc Hmiss.
    assert (Hg : generates self path w = true).
    { unfold generates. rewrite Hc, Hmiss. reflexivity. }
    split.
    + intros r w' H. rewrite Hget in H.
      destruct (resolve svg2png self "wi-na.png" w) as [[p | e] w2] eqn:Hr; cbn in H;
        [| discriminate].
      injection H as <- <-.
      destruct (resolve_generated svg2png self "wi-na.png" w w2 p Hg Hr)
        as (svg_dir & content & png & Hs & Ht & Hp & _ & _ & ->).
      exists svg_dir, content, png. auto.
    + intros svg_dir content png Hs Ht Hp Hcan.
      rewrite Hget, (resolve_generation svg2png self "wi-na.png" w Hg).
      fold path. rewrite Hs.
      change (str_replace ".png" ".svg" "wi-na.png") with "wi-na.svg".
      rewrite Ht, Hp, Hcan. reflexivity.
Qed.

Example custom_selector_init :
  WeatherImageSelector.__init__ sample_hex (sample_config "metric" "custom")
    (Some sample_rows) template_world = (Ok custom_selector, custom_world).
Proof. vm_compute. reflexivity. Qed.

Example light_selector_init :
  WeatherImageSelector.__init__ sample_hex (sample_config "metric" "light")
    (Some sample_rows) bare_world = (Ok light_selector, bare_world).
Proof. vm_compute. reflexivity. Qed.

Lemma unknown_image_for_unmapped_code_witness :
  WeatherImageSelector.get_image sample_png light_selector 999 "night" bare_world
  = (Ok (Some "icons/light/wi-na.png"), bare_world)
  /\ os_path_exists (fs unknown_template_world) "icons/#ffffff/wi-na.png" = false
  /\ WeatherImageSelector.get_image sample_png custom_selector 999 "night"
       unknown_template_world
     = (Ok (Some "icons/#ffffff/wi-na.png"),
        {| fs := <["icons/#ffffff/wi-na.png"
                   := FFile ("PNG <svg style=" ++ dquote ++ "fill:#ffffff;stroke:#ffffff;y"
                             ++ dquote ++ "/>")]> (fs unknown_template_world);
           written := ["icons/#ffffff/wi-na.png"] |}).
Proof.
  split; [| split; [reflexivity |]].
  - apply (proj1 (proj2 (unknown_image_for_unmapped_code sample_png light_selector 999 "night"
                           bare_world eq_refl eq_refl))).
    left. reflexivity.
  - apply (proj2 (proj2 (proj2 (proj2 (proj2
             (unknown_image_for_unmapped_code sample_png custom_selector 999 "night"
                unknown_template_world eq_refl eq_refl)))) eq_refl eq_refl)
             "svg" ("<svg style=" ++ dquote ++ "y" ++ dquote ++ "/>")); reflexivity.
Defined.

(** In the light and dark modes [_init_images] exits exactly when
    [_is_image_dir] answers true, and goes on to the mapping file when it
    answers false. *)
Lemma init_images_theme (webcolors_hex : string -> option string)
    (self : WeatherImageSelector.t) (rows : option (list (Z * string * string)))
    (w : world) (b : bool) :
  WeatherImageSelector._image_set self = "light"
  \/ WeatherImageSelector._image_set self = "dark" ->
  WeatherImageSelector._is_image_dir (fs w)
    (os_path_join (WeatherImageSelector._image_dir self)
                  (WeatherImageSelector._image_set self)) = Ok b ->
  fst (WeatherImageSelector._init_images webcolors_hex self rows w)
  = if b then Raise (SystemExit 1)
    else match rows with
         | Some rows =>
             Ok {| WeatherImageSelector._image_dir :=
                     os_path_join (WeatherImageSelector._image_dir self)
                                  (WeatherImageSelector._image_set self);
                   WeatherImageSelector._mapping_file := WeatherImageSelector._mapping_file self;
                   WeatherImageSelector._image_set := WeatherImageSelector._image_set self;
                   WeatherImageSelector._color := WeatherImageSelector._color self;
                   WeatherImageSelector._svg_dir := WeatherImageSelector._svg_dir self;
                   WeatherImageSelector._image_mappings :=
                     WeatherImageSelector.load_mappings rows;
                   WeatherImageSelector._initialized := true |}
         | None => Raise (SystemExit 1)
         end.
Proof.
  intros Hset Hdir. unfold WeatherImageSelector._init_images.
  destruct Hset as [Hs | Hs]; rewrite Hs in *;
    (rewrite bool_decide_eq_true_2 by set_solver);
    cbn -[WeatherImageSelector._is_image_dir os_path_join];
    rewrite Hdir; destruct b, rows; reflexivity.
Qed.

(** A resolver that [__init__] returns is initialized. *)
Lemma init_initialized (webcolors_hex : string -> option string) (config : Config)
    (rows : option (list (Z * string * string))) (w w' : world)
    (self : WeatherImageSelector.t) :
  WeatherImageSelector.__init__ webcolors_hex config rows w = (Ok self, w') ->
  WeatherImageSelector._initialized self = true.
Proof.
  unfold WeatherImageSelector.__init__, WeatherImageSelector._init_images,
    WeatherImageSelector.get_hex, os_mkdir.
  cbn [WeatherImageSelector._image_set WeatherImageSelector._image_dir
       WeatherImageSelector._color WeatherImageSelector._svg_dir
       WeatherImageSelector._mapping_file].
  repeat match goal with
         | |- context [if ?b then _ else _] => destruct b
         | |- context [match ?o with Some _ => _ | None => _ end] => destruct o
         | |- context [match ?r with Ok _ => _ | Raise _ => _ end] => destruct r
         end; intros H; try discriminate; injection H as <- _; reflexivity.
Qed.

(** C5. With the light theme installed (its directory holds wi-na.png)
    [_is_image_dir] is true and the start-up exits with status 1; with the
    directory empty [_is_image_dir] is false and the start-up goes through:
    the test on the directory is the opposite of the one described. *)
Theorem image_dir_check_inverted :
  WeatherImageSelector._is_image_dir (fs assets_world) "icons/light" = Ok true
  /\ fst (WeatherImageSelector.__init__ sample_hex (sample_config "metric" "light")
            (Some sample_rows) assets_world) = Raise (SystemExit 1)
  /\ WeatherImageSelector._is_image_dir (fs bare_world) "icons/light" = Ok false
  /\ fst (WeatherImageSelector.__init__ sample_hex (sample_config "metric" "light")
            (Some sample_rows) bare_world) = Ok light_selector.
Proof.
  repeat split; vm_compute; reflexivity.
Qed.

(** C6. In custom mode, when a lookup returns a path: it has written that
    asset once if it was missing and nothing if it was there; the asset is
    then on disk; and the same lookup again returns the same path and leaves
    the file system and the list of generated assets as they are. *)
Theorem custom_generation_memoized (svg2png : string -> option string)
    (self : WeatherImageSelector.t) (condition_id : Z) (condition_time : string)
    (w w1 : world) (path : string) :
  WeatherImageSelector._image_set self = "custom" ->
  WeatherImageSelector.get_image svg2png self condition_id condition_time w
  = (Ok (Some path), w1) ->
  (if os_path_exists (fs w) path then w1 = w
   else written w1 = (written w ++ [path])%list)
  /\ os_path_exists (fs w1) path = true
  /\ WeatherImageSelector.get_image svg2png self condition_id condition_time w1
     = (Ok (Some path), w1).
Proof.
  intros Hc Hget.
  destruct (get_image_cases svg2png self condition_id condition_time)
    as [Hnone | [Hkey | [filename Hres]]].
  - rewrite Hnone in Hget. discriminate.
  - rewrite Hkey in Hget. discriminate.
  - rewrite Hres in Hget.
    destruct (resolve svg2png self filename w) as [[p | e] w2] eqn:Hr;
      cbn in Hget; [| discriminate].
    injection Hget as <- <-.
    pose proof (resolve_again _ _ _ _ _ _ Hr) as Hagain.
    destruct (resolve_ok _ _ _ _ _ _ Hr) as [Hp Hg].
    unfold generates in Hg. rewrite Hc in Hg. cbn in Hg.
    split; [| split].
    + destruct (os_path_exists (fs w) p); cbn in Hg; tauto.
    + destruct (os_path_exists (fs w) p) eqn:He; cbn in Hg; [now subst w2 | tauto].
    + rewrite Hres, Hagain. reflexivity.
Qed.

Lemma custom_generation_memoized_witness :
  let w1 := snd (WeatherImageSelector.get_image sample_png custom_selector 800 "day"
                   custom_world) in
  written custom_world = []
  /\ written w1 = ["icons/#ffffff/wi-day-sunny.png"]
  /\ WeatherImageSelector.get_image sample_png custom_selector 800 "day" w1
     = (Ok (Some "icons/#ffffff/wi-day-sunny.png"), w1).
Proof.
  intros w1.
  assert (Hget : WeatherImageSelector.get_image sample_png custom_selector 800 "day"
                   custom_world = (Ok (Some "icons/#ffffff/wi-day-sunny.png"), w1))
    by (vm_compute; reflexivity).
  destruct (custom_generation_memoized sample_png custom_selector 800 "day"
              custom_world w1 _ eq_refl Hget) as [Hw [_ Hagain]].
  split; [reflexivity |]. split; [exact Hw | exact Hagain].
Defined.

(** The fixed icons go through the same generation and are memoized alike. *)
Lemma get_icon_memoized (svg2png : string -> option string)
    (self : WeatherImageSelector.t) (name path : string) (w w1 : world) :
  WeatherImageSelector.get_icon svg2png self name w = (Ok path, w1) ->
  WeatherImageSelector.get_icon svg2png self name w1 = (Ok path, w1).
Proof.
  destruct (get_icon_resolve svg2png self name w) as [filename H].
  intros Hget. change (resolve svg2png self
    (if String.eqb name "humidity" then "wi-humidity.png"
     else if String.eqb name "precipitation" then "wi-raindrops.png"
     else if String.eqb name "wind" then "wi-strong-wind.png"
     else if String.eqb name "precipitation_chance" then "wi-umbrella.png"
     else "wi-na.png") w = (Ok path, w1)) in Hget.
  apply resolve_again in Hget. exact Hget.
Qed.

(** What the generated asset is made of: the template with its style
    attribute recoloured. *)
Example generated_asset :
  fs (snd (WeatherImageSelector.get_image sample_png custom_selector 800 "day" custom_world))
     !! "icons/#ffffff/wi-day-sunny.png"
  = Some (FFile ("PNG <svg style=" ++ dquote ++ "fill:#ffffff;stroke:#ffffff;x"
                 ++ dquote ++ "/>")).
Proof. vm_compute. reflexivity. Qed.

(** ** The fetcher *)

Section Fetcher.

Import WeatherDataFetcher.

Lemma fetch_weather_state (self : t) (io : cycle) :
  weather_state (fst (_fetch_weather self io))
  = if commits io
    then (fetched_weather io, fetched_forecasts io, clock_commit io)
    else weather_state self.
Proof.
  unfold _fetch_weather, commits. now destruct (truthy_list _ && truthy_obj _).
Qed.

Lemma update_data_state (self : t) (io : cycle) :
  weather_state (fst (update_data self io))
  = if due self io && commits io
    then (fetched_weather io, fetched_forecasts io, clock_commit io)
    else weather_state self.
Proof.
  unfold update_data, due. cbn [_fetch_internet_status internet_active
    _last_weather_fetch _poll_interval_seconds].
  destruct (probe_ok io && Qgtb _ _); [| reflexivity].
  pose proof (fetch_weather_state (_fetch_internet_status self io) io) as Hst.
  destruct (_fetch_weather (_fetch_internet_status self io) io) as [self' trace].
  cbn [fst] in *. rewrite Hst. cbn [andb]. now destruct (commits io).
Qed.

Lemma update_data_trace (self : t) (io : cycle) :
  snd (update_data self io)
  = if due self io
    then [Probe; Fetch (_weather_url self); Fetch (_forecast_url self)]
    else [Probe].
Proof.
  unfold update_data, due. cbn [_fetch_internet_status internet_active
    _last_weather_fetch _poll_interval_seconds].
  destruct (probe_ok io && Qgtb _ _); [| reflexivity].
  unfold _fetch_weather. now destruct (truthy_list _ && truthy_obj _).
Qed.

Lemma update_data_last_fetch (self : t) (io : cycle) :
  _last_weather_fetch (fst (update_data self io))
  = if due self io then clock_fetch io else _last_weather_fetch self.
Proof.
  unfold update_data, due. cbn [_fetch_internet_status internet_active
    _last_weather_fetch _poll_interval_seconds].
  destruct (probe_ok io && Qgtb _ _); [| reflexivity].
  unfold _fetch_weather. now destruct (truthy_list _ && truthy_obj _).
Qed.

Lemma Qgtb_lt (a b : Q) : Qgtb a b = true <-> (b < a)%Q.
Proof.
  unfold Qgtb. rewrite negb_true_iff, <- not_true_iff_false, Qle_bool_iff.
  split; [apply Qnot_le_lt | apply Qlt_not_le].
Qed.

Lemma due_iff (self : t) (io : cycle) :
  due self io = true
  <-> probe_ok io = true
      /\ (_last_weather_fetch self + inject_Z (_poll_interval_seconds self) < clock_check io)%Q.
Proof. unfold due. now rewrite andb_true_iff, Qgtb_lt. Qed.

End Fetcher.

(** C1. When exactly one of the two documents is fetched and parsed, the
    call of [update_data] leaves the stored conditions, the stored forecasts
    and the time of the last update as they were. *)
Theorem combined_commit_atomic (self : WeatherDataFetcher.t) (io : cycle) :
  (is_Some (WeatherDataFetcher.fetched_weather io)
   /\ WeatherDataFetcher.fetched_forecasts io = None)
  \/ (WeatherDataFetcher.fetched_weather io = None
      /\ is_Some (WeatherDataFetcher.fetched_forecasts io)) ->
  let self' := fst (WeatherDataFetcher.update_data self io) in
  WeatherDataFetcher.weather self' = WeatherDataFetcher.weather self
  /\ WeatherDataFetcher.forecasts self' = WeatherDataFetcher.forecasts self
  /\ WeatherDataFetcher.last_weather_update self'
     = WeatherDataFetcher.last_weather_update self.
Proof.
  intros Hone self'.
  assert (Hno : commits io = false).
  { unfold commits. destruct Hone as [[_ ->] | [-> _]]; [reflexivity | apply andb_false_r]. }
  pose proof (update_data_state self io) as Hst.
  rewrite Hno, andb_false_r in Hst. unfold weather_state in Hst. fold self' in Hst.
  injection Hst as -> -> ->. auto.
Qed.

(** The first call of a fresh fetcher: the conditions arrive, the forecast
    request fails; the fetch was made and nothing was stored. *)
Lemma combined_commit_atomic_witness :
  let io := sample_cycle 1000 (Some sample_weather_doc) None in
  let self' := fst (WeatherDataFetcher.update_data sample_fetcher io) in
  snd (WeatherDataFetcher.update_data sample_fetcher io)
  = [Probe; Fetch "http://api/weather"; Fetch "http://api/forecast"]
  /\ WeatherDataFetcher.weather self' = None
  /\ WeatherDataFetcher.forecasts self' = None
  /\ WeatherDataFetcher.last_weather_update self' = (-1)%Q.
Proof.
  intros io self'. split; [reflexivity |].
  apply (combined_commit_atomic sample_fetcher io).
  left. split; [eexists; reflexivity | reflexivity].
Defined.

(** The rest of the fetcher state does move in such a cycle: the time of the
    last attempt is the start of this fetch. *)
Example failed_cycle_records_attempt :
  let io := sample_cycle 1000 (Some sample_weather_doc) None in
  WeatherDataFetcher._last_weather_fetch (fst (WeatherDataFetcher.update_data sample_fetcher io))
  = 1000%Q
  /\ WeatherDataFetcher._last_weather_fetch sample_fetcher = 0%Q.
Proof. split; reflexivity. Qed.

(** A cycle in which both documents parse to something is committed. *)
Example good_cycle_commits :
  let self' := fst (WeatherDataFetcher.update_data sample_fetcher (good_cycle 1000)) in
  is_Some (WeatherDataFetcher.weather self')
  /\ (exists f, WeatherDataFetcher.forecasts self' = Some [f])
  /\ WeatherDataFetcher.last_weather_update self' = (1000 + 3)%Q.
Proof. cbn. repeat split; eexists; reflexivity. Qed.

(** The claim of C3 fails in both directions.  After a committed cycle
    (started at 1000, committed at 1003) and a failed attempt at 1700, a call
    at 1800 is 797 seconds after the last successful update, more than the
    interval of 600, and fetches nothing, the attempt being 100 seconds old.
    After the committed cycle alone, a call at 1601 is 598 seconds after the
    last successful update, less than the interval, and fetches both
    documents, the start of that cycle being 601 seconds old. *)
Lemma poll_gating_counterexample :
  let late := fst (WeatherDataFetcher.run sample_fetcher
                     [good_cycle 1000; sample_cycle 1700 None None]) in
  let early := fst (WeatherDataFetcher.run sample_fetcher [good_cycle 1000]) in
  (WeatherDataFetcher.last_weather_update late = (1000 + 3)%Q
   /\ probe_ok (good_cycle 1800) = true
   /\ (inject_Z (WeatherDataFetcher._poll_interval_seconds late)
       <= clock_check (good_cycle 1800) - WeatherDataFetcher.last_weather_update late)%Q
   /\ snd (WeatherDataFetcher.update_data late (good_cycle 1800)) = [Probe])
  /\ (WeatherDataFetcher.last_weather_update early = (1000 + 3)%Q
      /\ probe_ok (good_cycle 1601) = true
      /\ (clock_check (good_cycle 1601) - WeatherDataFetcher.last_weather_update early
          < inject_Z (WeatherDataFetcher._poll_interval_seconds early))%Q
      /\ snd (WeatherDataFetcher.update_data early (good_cycle 1601))
         = [Probe; Fetch "http://api/weather"; Fetch "http://api/forecast"]).
Proof.
  cbv zeta. split; (split; [reflexivity |]); (split; [reflexivity |]);
    (split; [vm_compute; congruence || reflexivity | vm_compute; reflexivity]).
Qed.

(** C3, amended. [update_data] fetches the two documents, conditions first,
    exactly when the probe succeeds and the clock is strictly past the start
    of the last fetch attempt plus the poll interval; otherwise it only
    probes.  Every fetch, committed or not, becomes the last attempt. *)
Theorem poll_gating (self : WeatherDataFetcher.t) (io : cycle) :
  (due self io = true
   <-> probe_ok io = true
       /\ (WeatherDataFetcher._last_weather_fetch self
           + inject_Z (WeatherDataFetcher._poll_interval_seconds self) < clock_check io)%Q)
  /\ snd (WeatherDataFetcher.update_data self io)
     = (if due self io
        then [Probe; Fetch (WeatherDataFetcher._weather_url self);
              Fetch (WeatherDataFetcher._forecast_url self)]
        else [Probe])
  /\ WeatherDataFetcher._last_weather_fetch (fst (WeatherDataFetcher.update_data self io))
     = (if due self io then clock_fetch io else WeatherDataFetcher._last_weather_fetch self).
Proof.
  split; [apply due_iff |].
  split; [apply update_data_trace | apply update_data_last_fetch].
Qed.

(** Two calls less than the interval apart: the second one does not fetch,
    whatever the first one did. *)
Lemma second_call_within_interval (self : WeatherDataFetcher.t) (io io' : cycle) :
  due self io = true ->
  (clock_check io' <= clock_fetch io
                      + inject_Z (WeatherDataFetcher._poll_interval_seconds self))%Q ->
  snd (WeatherDataFetcher.update_data (fst (WeatherDataFetcher.update_data self io)) io')
  = [Probe].
Proof.
  intros Hdue Hle. rewrite update_data_trace.
  destruct (due (fst (WeatherDataFetcher.update_data self io)) io') eqn:Hd; [| reflexivity].
  apply due_iff in Hd as [_ Hlt].
  rewrite update_data_last_fetch, Hdue in Hlt.
  assert (Hp : WeatherDataFetcher._poll_interval_seconds
                 (fst (WeatherDataFetcher.update_data self io))
               = WeatherDataFetcher._poll_interval_seconds self).
  { unfold WeatherDataFetcher.update_data, WeatherDataFetcher._fetch_weather.
    repeat match goal with |- context [if ?b then _ else _] => destruct b end; reflexivity. }
  rewrite Hp in Hlt. exfalso. apply (Qlt_not_le _ _ Hlt). exact Hle.
Qed.

Lemma parse_forecasts_empty_list (kv : list (string * pyval)) :
  assoc_lookup "list" kv = Some (PList []) ->
  WeatherDataFetcher._parse_forecasts (PDict kv) = Some [].
Proof.
  intros H. unfold WeatherDataFetcher._parse_forecasts. cbn [py_getitem].
  rewrite H. reflexivity.
Qed.

(** C10. When the conditions document parses and the forecast document has
    an empty [list], the forecast parse returns the empty sequence and the
    cycle stores nothing: conditions, forecasts and time of the last update
    stay as they were, after [_fetch_weather] and after [update_data]. *)
Theorem empty_forecast_list_commits_nothing (self : WeatherDataFetcher.t) (io : cycle)
    (weather_data : pyval) (new_weather : Weather.t) (kv : list (string * pyval)) :
  weather_response io = Some weather_data ->
  WeatherDataFetcher._parse_current_weather weather_data = Some new_weather ->
  forecast_response io = Some (PDict kv) ->
  assoc_lookup "list" kv = Some (PList []) ->
  WeatherDataFetcher.fetched_weather io = Some new_weather
  /\ WeatherDataFetcher.fetched_forecasts io = Some []
  /\ weather_state (fst (WeatherDataFetcher._fetch_weather self io)) = weather_state self
  /\ weather_state (fst (WeatherDataFetcher.update_data self io)) = weather_state self.
Proof.
  intros Hw Hpw Hf Hl.
  assert (Hff : WeatherDataFetcher.fetched_forecasts io = Some []).
  { unfold WeatherDataFetcher.fetched_forecasts. rewrite Hf. cbn.
    now apply parse_forecasts_empty_list. }
  assert (Hfw : WeatherDataFetcher.fetched_weather io = Some new_weather).
  { unfold WeatherDataFetcher.fetched_weather. rewrite Hw. cbn.
    destruct weather_data; exact Hpw. }
  assert (Hno : commits io = false) by (unfold commits; now rewrite Hff).
  split; [exact Hfw |]. split; [exact Hff |].
  rewrite fetch_weather_state, update_data_state, Hno, andb_false_r. auto.
Qed.

(** After a committed cycle at 1000, a cycle at 2000 gets a forecast
    document with an empty list: both documents are fetched, and the stored
    state is still that of the first cycle. *)
Lemma empty_forecast_list_commits_nothing_witness :
  let self := fst (WeatherDataFetcher.update_data sample_fetcher (good_cycle 1000)) in
  snd (WeatherDataFetcher.update_data self (empty_forecast_cycle 2000))
  = [Probe; Fetch "http://api/weather"; Fetch "http://api/forecast"]
  /\ WeatherDataFetcher.last_weather_update self = (1000 + 3)%Q
  /\ weather_state (fst (WeatherDataFetcher.update_data self (empty_forecast_cycle 2000)))
     = weather_state self.
Proof.
  intros self. split; [vm_compute; reflexivity |]. split; [reflexivity |].
  refine (proj2 (proj2 (proj2
    (empty_forecast_list_commits_nothing self (empty_forecast_cycle 2000)
       sample_weather_doc _ [("list", PList [])] eq_refl eq_refl eq_refl eq_refl)))).
Defined.

(** * Further properties *)

(** ** Parsing the documents *)

Lemma chars_app (s t : string) : chars (s ++ t) = (chars s ++ chars t)%list.
Proof.
  unfold chars. now rewrite list_ascii_of_string_app, map_app.
Qed.

Lemma py_index_last {A} (l : list A) (x : A) : py_index (l ++ [x]) (-1) = Some x.
Proof.
  unfold py_index. rewrite length_app. cbn [length].
  replace (-1 <? 0) with true by reflexivity.
  replace (Z.of_nat (length l + 1) + -1) with (Z.of_nat (length l)) by lia.
  destruct (Z.leb_spec 0 (Z.of_nat (length l))); [| lia].
  destruct (Z.ltb_spec (Z.of_nat (length l)) (Z.of_nat (length l + 1))); [| lia].
  cbn [andb]. rewrite Nat2Z.id, nth_error_app2 by lia.
  now rewrite Nat.sub_diag.
Qed.

(** The time of day of an icon code is read off its last character: [d] is
    day, [n] is night, anything else is general; the empty code has no last
    character and raises [IndexError]. *)
Theorem parse_condition_time_last_char (s : string) (c : ascii) :
  WeatherDataFetcher._parse_condition_time (PStr (s ++ String c EmptyString))
  = Ok (if Ascii.eqb c "d" then "day"
        else if Ascii.eqb c "n" then "night"
        else "general")
  /\ WeatherDataFetcher._parse_condition_time (PStr "") = Raise IndexError.
Proof.
  split; [| reflexivity].
  unfold WeatherDataFetcher._parse_condition_time. cbn [py_getitem].
  rewrite chars_app. change (chars (String c "")) with [String c ""].
  rewrite py_index_last. cbn [rbind is_str String.eqb].
  destruct (Ascii.eqb c "d"), (Ascii.eqb c "n"); reflexivity.
Qed.

(** What a successful parse of the conditions document has read: every
    field of the result is the entry of the document it is named after. *)
Lemma parse_current_weather_inv (json_data : pyval) (w : Weather.t) :
  WeatherDataFetcher._parse_current_weather json_data = Some w ->
  WeatherDataFetcher.get_weather0 json_data "id" = Ok (Weather.condition_id w)
  /\ WeatherDataFetcher.get_weather0 json_data "description" = Ok (Weather.condition_text w)
  /\ (exists icon, WeatherDataFetcher.get_weather0 json_data "icon" = Ok icon
                   /\ WeatherDataFetcher._parse_condition_time icon
                      = Ok (Weather.condition_time w))
  /\ WeatherDataFetcher.get2 json_data "main" "humidity" = Ok (Weather.humidity w)
  /\ WeatherDataFetcher.get2 json_data "main" "temp" = Ok (Weather.temp w)
  /\ py_getitem json_data (KStr "timezone") = Ok (Weather.timezone w)
  /\ WeatherDataFetcher.get2 json_data "wind" "deg" = Ok (Weather.wind_dir w)
  /\ WeatherDataFetcher.get2 json_data "wind" "speed" = Ok (Weather.wind_speed w)
  /\ (exists p, WeatherDataFetcher.add_precip json_data "rain" (PNum 0) = Ok p
                /\ WeatherDataFetcher.add_precip json_data "snow" p
                   = Ok (Weather.hourly_precip w)).
Proof.
  unfold WeatherDataFetcher._parse_current_weather. intros H.
  repeat match type of H with
         | try_except (rbind ?m _) = Some _ =>
             destruct m eqn:?; cbn [rbind] in H; [| discriminate]
         end.
  cbn in H. injection H as <-. cbn. repeat split; eauto.
Qed.

Lemma add_precip_absent (kv : list (string * pyval)) (key : string) (precip : pyval) :
  assoc_lookup key kv = None ->
  WeatherDataFetcher.add_precip (PDict kv) key precip = Ok precip.
Proof.
  intros H. unfold WeatherDataFetcher.add_precip. cbn [py_contains rbind].
  rewrite H. rewrite bool_decide_eq_false_2; [reflexivity |].
  intros [x Hx]. discriminate.
Qed.

Lemma add_precip_present (kv : list (string * pyval)) (key : string) (v : pyval) (p : pyval) :
  assoc_lookup key kv = Some v ->
  WeatherDataFetcher.add_precip (PDict kv) key p
  = (do x <~ py_getitem v (KStr "1h");
     match p with
     | PNum a => py_add_num a x
     | _ => Raise TypeError
     end).
Proof.
  intros H. unfold WeatherDataFetcher.add_precip, WeatherDataFetcher.get2.
  cbn [py_contains py_getitem rbind].
  rewrite H. rewrite bool_decide_eq_true_2 by eauto. reflexivity.
Qed.

(** The hourly precipitation of the parsed conditions is the sum of the
    [1h] volumes under [rain] and under [snow], each counted when its key is
    in the document, starting from 0. *)
Theorem hourly_precip_sums_rain_and_snow (kv : list (string * pyval)) (w : Weather.t) :
  WeatherDataFetcher._parse_current_weather (PDict kv) = Some w ->
  (assoc_lookup "rain" kv = None -> assoc_lookup "snow" kv = None ->
   Weather.hourly_precip w = PNum 0)
  /\ (forall rain a, assoc_lookup "rain" kv = Some rain ->
        py_getitem rain (KStr "1h") = Ok (PNum a) ->
        assoc_lookup "snow" kv = None ->
        Weather.hourly_precip w = PNum (0 + a))
  /\ (forall snow b, assoc_lookup "rain" kv = None ->
        assoc_lookup "snow" kv = Some snow ->
        py_getitem snow (KStr "1h") = Ok (PNum b) ->
        Weather.hourly_precip w = PNum (0 + b))
  /\ (forall rain snow a b, assoc_lookup "rain" kv = Some rain ->
        py_getitem rain (KStr "1h") = Ok (PNum a) ->
        assoc_lookup "snow" kv = Some snow ->
        py_getitem snow (KStr "1h") = Ok (PNum b) ->
        Weather.hourly_precip w = PNum (0 + a + b)).
Proof.
  intros H.
  destruct (parse_current_weather_inv _ _ H)
    as (_ & _ & _ & _ & _ & _ & _ & _ & p & Hrain & Hsnow).
  split; [| split; [| split]].
  - intros Hr Hs. rewrite add_precip_absent in Hrain, Hsnow by assumption. congruence.
  - intros rain a Hr Ha Hs.
    rewrite (add_precip_present _ _ _ _ Hr), Ha in Hrain.
    rewrite add_precip_absent in Hsnow by assumption.
    cbn in Hrain. congruence.
  - intros snow b Hr Hs Hb.
    rewrite add_precip_absent in Hrain by assumption. injection Hrain as <-.
    rewrite (add_precip_present _ _ _ _ Hs), Hb in Hsnow.
    cbn in Hsnow. congruence.
  - intros rain snow a b Hr Ha Hs Hb.
    rewrite (add_precip_present _ _ _ _ Hr), Ha in Hrain. cbn in Hrain.
    injection Hrain as <-.
    rewrite (add_precip_present _ _ _ _ Hs), Hb in Hsnow.
    cbn in Hsnow. congruence.
Qed.

Lemma hourly_precip_sums_rain_and_snow_witness :
  exists w : Weather.t,
    WeatherDataFetcher._parse_current_weather snowy_weather_doc = Some w
    /\ Weather.hourly_precip w = PNum (0 + (1 # 2) + (3 # 2)).
Proof.
  destruct (WeatherDataFetcher._parse_current_weather snowy_weather_doc) as [w |] eqn:H;
    [| vm_compute in H; discriminate].
  exists w. split; [reflexivity |].
  unfold snowy_weather_doc in H.
  eapply (proj2 (proj2 (proj2 (hourly_precip_sums_rain_and_snow _ w H)))); reflexivity.
Defined.

(** A [rain] or [snow] entry without a numeric [1h] volume (the provider
    also reports [3h] volumes) makes the whole conditions document
    unparseable: the parse returns [None]. *)
Theorem precip_without_1h_blocks_parse (kv : list (string * pyval)) (key : string)
    (v : pyval) :
  key = "rain" \/ key = "snow" ->
  assoc_lookup key kv = Some v ->
  (forall a, py_getitem v (KStr "1h") <> Ok (PNum a)) ->
  (forall b, py_getitem v (KStr "1h") <> Ok (PBool b)) ->
  WeatherDataFetcher._parse_current_weather (PDict kv) = None.
Proof.
  intros Hkey Hv Hnum Hbool.
  destruct (WeatherDataFetcher._parse_current_weather (PDict kv)) as [w |] eqn:Hp;
    [exfalso | reflexivity].
  destruct (parse_current_weather_inv _ _ Hp)
    as (_ & _ & _ & _ & _ & _ & _ & _ & p & Hrain & Hsnow).
  assert (Hbad : forall q r, (do x <~ py_getitem v (KStr "1h");
                              match q with
                              | PNum a => py_add_num a x
                              | _ => Raise TypeError
                              end) <> Ok r).
  { intros q r. destruct (py_getitem v (KStr "1h")) as [x |] eqn:Hx; [| discriminate].
    cbn [rbind]. destruct q; try discriminate.
    destruct x; try discriminate.
    - exfalso. eapply Hbool. reflexivity.
    - exfalso. eapply Hnum. reflexivity. }
  destruct Hkey as [-> | ->].
  - rewrite (add_precip_present _ _ _ _ Hv) in Hrain. exact (Hbad (PNum 0) _ Hrain).
  - rewrite (add_precip_present _ _ _ _ Hv) in Hsnow. exact (Hbad p _ Hsnow).
Qed.

Lemma precip_without_1h_blocks_parse_witness :
  WeatherDataFetcher._parse_current_weather rain_3h_weather_doc = None.
Proof.
  apply (precip_without_1h_blocks_parse _ "rain" (PDict [("3h", PNum 4)]));
    [left; reflexivity | reflexivity | intros a; discriminate | intros b; discriminate].
Defined.

(** A conditions document that lacks one of [weather], [main], [timezone]
    or [wind] does not raise: the parse returns [None]. *)
Theorem missing_section_parses_to_none (kv : list (string * pyval)) (key : string) :
  In key ["weather"; "main"; "timezone"; "wind"] ->
  assoc_lookup key kv = None ->
  WeatherDataFetcher._parse_current_weather (PDict kv) = None.
Proof.
  intros Hin Hnone.
  destruct (WeatherDataFetcher._parse_current_weather (PDict kv)) as [w |] eqn:Hp;
    [exfalso | reflexivity].
  destruct (parse_current_weather_inv _ _ Hp)
    as (Hid & _ & _ & Hhum & _ & Htz & Hdeg & _).
  unfold WeatherDataFetcher.get_weather0, WeatherDataFetcher.get2 in *.
  cbn [py_getitem] in *.
  cbn [In] in Hin. destruct Hin as [<- | [<- | [<- | [<- | []]]]];
    rewrite Hnone in *; discriminate.
Qed.

Lemma missing_section_parses_to_none_witness :
  WeatherDataFetcher._parse_current_weather
    (PDict [sample_conditions "01d";
            ("main", PDict [("humidity", PNum 40); ("temp", PNum 20)]);
            ("timezone", PNum 3600)])
  = None.
Proof.
  apply (missing_section_parses_to_none _ "wind");
    [right; right; right; left; reflexivity | reflexivity].
Defined.

(** A decoded document that is not a JSON object (a list, a string, a
    number, a boolean) parses to [None] as conditions and as forecasts. *)
Theorem non_object_document_parses_to_none (v : pyval) :
  (forall kv, v <> PDict kv) ->
  WeatherDataFetcher._parse_current_weather v = None
  /\ WeatherDataFetcher._parse_forecasts v = None.
Proof.
  intros H. destruct v; try (split; reflexivity).
  exfalso. eapply H. reflexivity.
Qed.

Lemma non_object_document_parses_to_none_witness :
  WeatherDataFetcher._parse_current_weather (PList [sample_weather_doc]) = None
  /\ WeatherDataFetcher._parse_forecasts (PStr "Invalid API key") = None.
Proof.
  split.
  - apply (non_object_document_parses_to_none (PList [sample_weather_doc])). discriminate.
  - apply (non_object_document_parses_to_none (PStr "Invalid API key")). discriminate.
Defined.

Lemma parse_forecast_loop_spec (items : list pyval) (acc fs : list Forecast.t) :
  WeatherDataFetcher.parse_forecast_loop items acc = Ok fs
  <-> exists fs', fs = (acc ++ fs')%list
                  /\ Forall2 (fun item f => WeatherDataFetcher.parse_forecast item = Ok f)
                             items fs'.
Proof.
  revert acc. induction items as [| item items IH]; intros acc; cbn.
  - split.
    + intros H. injection H as <-. exists []. rewrite app_nil_r. split; [reflexivity | constructor].
    + intros (fs' & -> & HF). inversion HF. now rewrite app_nil_r.
  - destruct (WeatherDataFetcher.parse_forecast item) as [f | e] eqn:Hf; cbn [rbind].
    + rewrite IH. split.
      * intros (fs' & -> & HF). exists (f :: fs'). rewrite <- app_assoc. split; [reflexivity |].
        constructor; assumption.
      * intros (fs' & -> & HF). inversion HF as [| ? f' ? fs'' Hf' HF']; subst.
        rewrite Hf in Hf'. injection Hf' as <-.
        exists fs''. rewrite <- app_assoc. split; [reflexivity | assumption].
    + split; [discriminate |].
      intros (fs' & -> & HF). inversion HF as [| ? f' ? fs'' Hf' HF']; subst.
      rewrite Hf in Hf'. discriminate.
Qed.

(** The forecast parse is all or nothing and keeps the provider's order: it
    returns a sequence exactly when every item of [list] parses, and the
    entries are then the parsed items, one for one and in the same order. *)
Theorem parse_forecasts_all_or_nothing (kv : list (string * pyval)) (items : list pyval)
    (fs : list Forecast.t) :
  assoc_lookup "list" kv = Some (PList items) ->
  (WeatherDataFetcher._parse_forecasts (PDict kv) = Some fs
   <-> Forall2 (fun item f => WeatherDataFetcher.parse_forecast item = Ok f) items fs).
Proof.
  intros Hl. unfold WeatherDataFetcher._parse_forecasts. cbn [py_getitem].
  rewrite Hl. cbn [rbind py_iter].
  destruct (WeatherDataFetcher.parse_forecast_loop items []) as [fs0 | e] eqn:Hloop; cbn.
  - apply parse_forecast_loop_spec in Hloop as (fs' & -> & HF). cbn [app].
    split.
    + intros H. injection H as <-. exact HF.
    + intros HF'. f_equal. revert HF HF'. clear. revert fs fs'.
      induction items as [| item items IH]; intros fs fs' HF HF';
        inversion HF; inversion HF'; subst; [reflexivity |].
      f_equal; [congruence | eauto].
  - split; [discriminate |]. intros HF. exfalso.
    assert (Hok : WeatherDataFetcher.parse_forecast_loop items [] = Ok fs)
      by (apply parse_forecast_loop_spec; exists fs; auto).
    congruence.
Qed.

Lemma parse_forecasts_all_or_nothing_witness :
  exists f1 f2 : Forecast.t,
    WeatherDataFetcher._parse_forecasts
      (PDict [("list", PList [sample_forecast_item (1 # 2); sample_forecast_item (1 # 4)])])
    = Some [f1; f2]
    /\ Forecast.precip_chance f1 = PNum ((1 # 2) * 100)
    /\ Forecast.precip_chance f2 = PNum ((1 # 4) * 100).
Proof.
  do 2 eexists. split.
  - apply (proj2 (parse_forecasts_all_or_nothing
             [("list", PList [sample_forecast_item (1 # 2); sample_forecast_item (1 # 4)])]
             [sample_forecast_item (1 # 2); sample_forecast_item (1 # 4)] _ eq_refl)).
    constructor; [vm_compute; reflexivity |].
    constructor; [vm_compute; reflexivity | constructor].
  - split; reflexivity.
Defined.

(** ** Sequences of update cycles *)

Lemma run_cons (self : WeatherDataFetcher.t) (io : cycle) (rest : list cycle) :
  fst (WeatherDataFetcher.run self (io :: rest))
  = fst (WeatherDataFetcher.run (fst (WeatherDataFetcher.update_data self io)) rest)
  /\ snd (WeatherDataFetcher.run self (io :: rest))
     = (snd (WeatherDataFetcher.update_data self io)
        ++ snd (WeatherDataFetcher.run (fst (WeatherDataFetcher.update_data self io)) rest))%list.
Proof.
  cbn [WeatherDataFetcher.run].
  destruct (WeatherDataFetcher.update_data self io) as [s1 t1]. cbn [fst snd].
  destruct (WeatherDataFetcher.run s1 rest) as [s2 t2]. split; reflexivity.
Qed.

Lemma update_data_config (self : WeatherDataFetcher.t) (io : cycle) :
  WeatherDataFetcher._weather_url (fst (WeatherDataFetcher.update_data self io))
  = WeatherDataFetcher._weather_url self
  /\ WeatherDataFetcher._forecast_url (fst (WeatherDataFetcher.update_data self io))
     = WeatherDataFetcher._forecast_url self
  /\ WeatherDataFetcher._poll_interval_seconds (fst (WeatherDataFetcher.update_data self io))
     = WeatherDataFetcher._poll_interval_seconds self.
Proof.
  unfold WeatherDataFetcher.update_data, WeatherDataFetcher._fetch_weather.
  repeat match goal with |- context [if ?b then _ else _] => destruct b end;
    repeat split; reflexivity.
Qed.

Lemma commits_inv (io : cycle) :
  commits io = true ->
  exists w f fs, WeatherDataFetcher.fetched_weather io = Some w
                 /\ WeatherDataFetcher.fetched_forecasts io = Some (f :: fs).
Proof.
  unfold commits.
  destruct (WeatherDataFetcher.fetched_forecasts io) as [[| f fs] |]; try discriminate.
  destruct (WeatherDataFetcher.fetched_weather io) as [w |]; try discriminate.
  eauto.
Qed.

Lemma run_state (ios : list cycle) (self : WeatherDataFetcher.t) :
  weather_state (fst (WeatherDataFetcher.run self ios)) = weather_state self
  \/ exists io, In io ios /\ commits io = true
                /\ weather_state (fst (WeatherDataFetcher.run self ios))
                   = (WeatherDataFetcher.fetched_weather io,
                      WeatherDataFetcher.fetched_forecasts io, clock_commit io).
Proof.
  revert self. induction ios as [| io rest IH]; intros self; [left; reflexivity |].
  rewrite (proj1 (run_cons self io rest)).
  destruct (IH (fst (WeatherDataFetcher.update_data self io))) as [Hsame | (io' & Hin & Hc & Hst)].
  - rewrite Hsame, update_data_state.
    destruct (due self io && commits io) eqn:Hd; [| left; reflexivity].
    right. exists io. apply andb_true_iff in Hd as [_ Hc].
    split; [left; reflexivity |]. split; [exact Hc | reflexivity].
  - right. exists io'. split; [right; exact Hin |]. split; assumption.
Qed.

(** Whatever calls were made since the fetcher was built, what it holds is
    either nothing at all (no conditions, no forecasts, update time -1) or
    the conditions, the non-empty forecasts and the commit time of one and
    the same call: the three are never mixed from different cycles. *)
Theorem stored_state_of_one_cycle
    (str_format : string -> string -> string -> string -> string -> string)
    (config : Config) (ios : list cycle) :
  let self := fst (WeatherDataFetcher.run (WeatherDataFetcher.__init__ str_format config) ios) in
  (WeatherDataFetcher.weather self = None
   /\ WeatherDataFetcher.forecasts self = None
   /\ WeatherDataFetcher.last_weather_update self = (-1)%Q)
  \/ (exists io w f fs,
        In io ios
        /\ WeatherDataFetcher.fetched_weather io = Some w
        /\ WeatherDataFetcher.fetched_forecasts io = Some (f :: fs)
        /\ WeatherDataFetcher.weather self = Some w
        /\ WeatherDataFetcher.forecasts self = Some (f :: fs)
        /\ WeatherDataFetcher.last_weather_update self = clock_commit io).
Proof.
  cbv zeta.
  pose proof (run_state ios (WeatherDataFetcher.__init__ str_format config)) as H.
  remember (fst (WeatherDataFetcher.run (WeatherDataFetcher.__init__ str_format config) ios))
    as self eqn:Hself. clear Hself.
  unfold weather_state in H.
  destruct H as [Hsame | (io & Hin & Hc & Hst)].
  - left. cbn in Hsame. injection Hsame as H1 H2 H3. repeat split; assumption.
  - right. destruct (commits_inv io Hc) as (w & f & fs & Hw & Hf).
    exists io, w, f, fs. injection Hst as H1 H2 H3.
    repeat split; congruence.
Qed.

(** Stale data is kept, not cleared: through any number of calls in which
    the host is unreachable or the cycle does not yield both documents, the
    stored conditions, forecasts and update time stay what they were. *)
Theorem stale_state_retained (self : WeatherDataFetcher.t) (ios : list cycle) :
  (forall io, In io ios -> probe_ok io = false \/ commits io = false) ->
  weather_state (fst (WeatherDataFetcher.run self ios)) = weather_state self.
Proof.
  revert self. induction ios as [| io rest IH]; intros self Hall; [reflexivity |].
  rewrite (proj1 (run_cons self io rest)).
  rewrite IH by (intros io' Hin; apply Hall; right; exact Hin).
  rewrite update_data_state.
  destruct (Hall io (or_introl eq_refl)) as [Hp | Hc].
  - unfold due. now rewrite Hp.
  - now rewrite Hc, andb_false_r.
Qed.

Lemma stale_state_retained_witness :
  let self := fst (WeatherDataFetcher.update_data sample_fetcher (good_cycle 1000)) in
  WeatherDataFetcher.last_weather_update self = (1000 + 3)%Q
  /\ weather_state
       (fst (WeatherDataFetcher.run self
               [offline_cycle 2000; sample_cycle 3000 None None; empty_forecast_cycle 4000]))
     = weather_state self.
Proof.
  intros self. split; [reflexivity |].
  apply (stale_state_retained self).
  intros io [<- | [<- | [<- | []]]]; [left | right | right]; reflexivity.
Defined.

Lemma second_call_within_interval_witness :
  snd (WeatherDataFetcher.update_data
         (fst (WeatherDataFetcher.update_data sample_fetcher (good_cycle 1000)))
         (good_cycle 1600))
  = [Probe].
Proof.
  apply (second_call_within_interval sample_fetcher (good_cycle 1000) (good_cycle 1600)).
  - reflexivity.
  - vm_compute. discriminate.
Defined.

(** Every call probes the host once and then requests either both
    documents, the conditions first, or none; the two URLs are those the
    fetcher was built with. *)
Theorem run_trace_shape (self : WeatherDataFetcher.t) (ios : list cycle) :
  exists fetched : list bool,
    length fetched = length ios
    /\ snd (WeatherDataFetcher.run self ios)
       = concat (map (fun d : bool =>
                        if d then [Probe; Fetch (WeatherDataFetcher._weather_url self);
                                   Fetch (WeatherDataFetcher._forecast_url self)]
                        else [Probe]) fetched).
Proof.
  revert self. induction ios as [| io rest IH]; intros self.
  - exists []. split; reflexivity.
  - destruct (IH (fst (WeatherDataFetcher.update_data self io))) as (ds & Hlen & Htr).
    destruct (update_data_config self io) as (Hw & Hf & _).
    rewrite Hw, Hf in Htr.
    exists (due self io :: ds). split; [cbn; now rewrite Hlen |].
    rewrite (proj2 (run_cons self io rest)), Htr, update_data_trace. reflexivity.
Qed.

(** ** Formatting *)



(** The temperature is printed as an integer, truncated toward zero, with
    the suffix of the unit system: degrees C for metric, degrees F for
    imperial; for any other unit system (the provider's default, Kelvin,
    included) no suffix was stored where the method looks for it and the call
    raises [AttributeError]. *)
Theorem format_temp_by_units (config : Config) (temp : Q) (label : string) :
  WeatherFormatter.format_temp (WeatherFormatter.__init__ config) (PNum temp) label
  = if String.eqb (location_units config) "metric"
    then Ok (label ++ " " ++ str_of_Z (Qtrunc temp) ++ " °C")
    else if String.eqb (location_units config) "imperial"
         then Ok (label ++ " " ++ str_of_Z (Qtrunc temp) ++ " °F")
         else Raise (AttributeError "_temp_unit").
Proof.
  unfold WeatherFormatter.__init__, WeatherFormatter.format_temp.
  destruct (String.eqb (location_units config) "metric"); [reflexivity |].
  destruct (String.eqb (location_units config) "imperial"); reflexivity.
Qed.

(** With metric units the four-line summary of the current conditions is
    never produced: [format_weather] raises on every input, because its last
    line is the wind line. *)
Theorem format_weather_metric_raises (format_2f : Q -> string) (config : Config)
    (weather : Weather.t) :
  location_units config = "metric" ->
  exists e,
    WeatherFormatter.format_weather format_2f (WeatherFormatter.__init__ config) weather
    = Raise e.
Proof.
  intros Hu.
  destruct (WeatherFormatter.format_weather format_2f (WeatherFormatter.__init__ config)
              weather) as [text | e] eqn:Hfw; [exfalso | eauto].
  unfold WeatherFormatter.format_weather in Hfw.
  repeat match type of Hfw with
         | rbind ?m _ = Ok _ => destruct m eqn:?; cbn [rbind] in Hfw; [| discriminate]
         end.
  eapply format_wind_speed_metric; eauto.
Qed.

Lemma format_weather_metric_raises_witness :
  WeatherFormatter.format_weather sample_2f
    (WeatherFormatter.__init__ (sample_config "metric" "light")) sample_weather
  = Raise (AttributeError "_wind_unit")
  /\ exists s, WeatherFormatter.format_weather sample_2f
                 (WeatherFormatter.__init__ (sample_config "imperial" "light")) sample_weather
               = Ok s.
Proof.
  split; [| eexists; reflexivity].
  destruct (format_weather_metric_raises sample_2f (sample_config "metric" "light")
              sample_weather eq_refl) as (e & He).
  reflexivity.
Defined.

(** What a successful parse of a forecast item has read. *)
Lemma parse_forecast_inv (forecast_data : pyval) (f : Forecast.t) :
  WeatherDataFetcher.parse_forecast forecast_data = Ok f ->
  WeatherDataFetcher.get_weather0 forecast_data "id" = Ok (Forecast.condition_id f)
  /\ WeatherDataFetcher.get_weather0 forecast_data "description"
     = Ok (Forecast.condition_text f)
  /\ (exists icon, WeatherDataFetcher.get_weather0 forecast_data "icon" = Ok icon
                   /\ WeatherDataFetcher._parse_condition_time icon
                      = Ok (Forecast.condition_time f))
  /\ WeatherDataFetcher.get2 forecast_data "main" "humidity" = Ok (Forecast.humidity f)
  /\ (exists pop, py_getitem forecast_data (KStr "pop") = Ok pop
                  /\ py_mul100 pop = Ok (Forecast.precip_chance f))
  /\ WeatherDataFetcher.get2 forecast_data "main" "temp" = Ok (Forecast.temp f)
  /\ py_getitem forecast_data (KStr "dt") = Ok (Forecast.timestamp f).
Proof.
  unfold WeatherDataFetcher.parse_forecast. intros H.
  repeat match type of H with
         | rbind ?m _ = Ok _ => destruct m eqn:?; cbn [rbind] in H; [| discriminate]
         end.
  injection H as <-. cbn. repeat split; eauto.
Qed.

(** ** The mapping table *)

Lemma lookup_add_mapping (mappings : gmap Z (gmap string string))
    (i : Z) (t f : string) (weather_id : Z) (tag : string) :
  lookup_mapping (WeatherImageSelector.add_mapping mappings (i, t, f)) weather_id tag
  = if decide (i = weather_id /\ t = tag) then Some f
    else lookup_mapping mappings weather_id tag.
Proof.
  unfold lookup_mapping, WeatherImageSelector.add_mapping.
  destruct (decide (i = weather_id)) as [-> | Hi].
  - rewrite lookup_insert_eq.
    destruct (mappings !! weather_id) as [m |] eqn:Hm.
    + rewrite Hm. cbn [default].
      destruct (decide (t = tag)) as [-> | Ht].
      * rewrite lookup_insert_eq. now rewrite decide_True by auto.
      * rewrite lookup_insert_ne by assumption. now rewrite decide_False by tauto.
    + rewrite lookup_insert_eq. cbn [default].
      destruct (decide (t = tag)) as [-> | Ht].
      * rewrite lookup_insert_eq. now rewrite decide_True by auto.
      * rewrite lookup_insert_ne by assumption.
        rewrite decide_False by tauto. reflexivity.
  - rewrite lookup_insert_ne by assumption.
    rewrite decide_False by tauto.
    destruct (mappings !! i); [reflexivity |].
    now rewrite lookup_insert_ne by assumption.
Qed.

Lemma lookup_foldl_other (rows : list (Z * string * string))
    (mappings : gmap Z (gmap string string)) (weather_id : Z) (tag : string) :
  (forall r, In r rows -> (fst (fst r), snd (fst r)) <> (weather_id, tag)) ->
  lookup_mapping (foldl WeatherImageSelector.add_mapping mappings rows) weather_id tag
  = lookup_mapping mappings weather_id tag.
Proof.
  revert mappings. induction rows as [| [[i t] f] rows IH]; intros mappings Hall;
    [reflexivity |].
  cbn [foldl]. rewrite IH by (intros r Hr; apply Hall; right; exact Hr).
  rewrite lookup_add_mapping. rewrite decide_False; [reflexivity |].
  intros [-> ->]. apply (Hall (weather_id, tag, f)); [left |]; reflexivity.
Qed.

(** Loading the mapping file and looking a pair up: the table maps a
    condition code and a tag to a file name exactly when some line names that
    pair, and the file name is that of the last such line. *)
Theorem load_mappings_last_wins (rows : list (Z * string * string)) (weather_id : Z)
    (tag filename : string) :
  lookup_mapping (WeatherImageSelector.load_mappings rows) weather_id tag = Some filename
  <-> exists before after,
        rows = (before ++ (weather_id, tag, filename) :: after)%list
        /\ forall r, In r after -> (fst (fst r), snd (fst r)) <> (weather_id, tag).
Proof.
  unfold WeatherImageSelector.load_mappings. split.
  - induction rows as [| [[i t] f] rows IH] using rev_ind; [discriminate |].
    rewrite foldl_app. cbn [foldl]. rewrite lookup_add_mapping.
    destruct (decide (i = weather_id /\ t = tag)) as [[-> ->] | Hne].
    + intros H. injection H as ->. exists rows, []. split; [reflexivity |].
      intros r [].
    + intros H. destruct (IH H) as (before & after & -> & Hafter).
      exists before, (after ++ [(i, t, f)])%list.
      rewrite <- app_assoc. split; [reflexivity |].
      intros r Hr. apply in_app_or in Hr as [Hr | [<- | []]]; [now apply Hafter |].
      cbn. intros Heq. injection Heq as -> ->. tauto.
  - intros (before & after & -> & Hafter).
    rewrite foldl_app. cbn [foldl].
    rewrite lookup_foldl_other by exact Hafter.
    rewrite lookup_add_mapping. now rewrite decide_True by auto.
Qed.

(** ** Lookups and the file system *)

Lemma resolve_world (svg2png : string -> option string) (self : WeatherImageSelector.t)
    (filename : string) (w : world) :
  let path := os_path_join (WeatherImageSelector._image_dir self) filename in
  snd (resolve svg2png self filename w) = w
  \/ (generates self path w = true
      /\ exists png, snd (resolve svg2png self filename w)
                     = {| fs := <[path := FFile png]> (fs w);
                          written := (written w ++ [path])%list |}).
Proof.
  intros path. unfold resolve, WeatherImageSelector._maybe_generate_custom_image.
  fold path. fold (generates self path w).
  destruct (generates self path w) eqn:Hg; [| left; reflexivity].
  destruct (WeatherImageSelector._svg_dir self) as [svg_dir |]; [| left; reflexivity].
  destruct (fs w !! _) as [[content |] |]; try (left; reflexivity).
  destruct (svg2png _) as [png |]; [| left; reflexivity].
  destruct (can_create (fs w) path); [| left; reflexivity].
  right. split; [reflexivity |]. exists png. reflexivity.
Qed.

Lemma get_image_world (svg2png : string -> option string) (self : WeatherImageSelector.t)
    (condition_id : Z) (condition_time : string) (w : world) :
  exists filename,
    snd (WeatherImageSelector.get_image svg2png self condition_id condition_time w) = w
    \/ snd (WeatherImageSelector.get_image svg2png self condition_id condition_time w)
       = snd (resolve svg2png self filename w).
Proof.
  destruct (get_image_cases svg2png self condition_id condition_time)
    as [H | [H | [filename H]]].
  - exists "". left. now rewrite H.
  - exists "". left. now rewrite H.
  - exists filename. right. rewrite H.
    now destruct (resolve svg2png self filename w).
Qed.

(** A lookup never changes or removes what is on disk, and the only thing
    it can add is the asset it was asked for.  Whatever the mode and whether
    [get_image] returns or raises, the world after the call is the world
    before it, or the world before it with one new file: at a path of the
    asset directory that did not exist, holding what the rasterizer made of
    the recoloured template of the same base name, in custom mode. *)
Theorem get_image_keeps_existing_files (svg2png : string -> option string)
    (self : WeatherImageSelector.t) (condition_id : Z) (condition_time : string)
    (w : world) :
  let w1 := snd (WeatherImageSelector.get_image svg2png self condition_id condition_time w) in
  (forall path node, fs w !! path = Some node -> fs w1 !! path = Some node)
  /\ (w1 = w
      \/ exists filename svg_dir content png,
           WeatherImageSelector._image_set self = "custom"
           /\ WeatherImageSelector._svg_dir self = Some svg_dir
           /\ fs w !! os_path_join svg_dir (str_replace ".png" ".svg" filename)
              = Some (FFile content)
           /\ svg2png (recoloured (WeatherImageSelector._color self) content) = Some png
           /\ fs w !! os_path_join (WeatherImageSelector._image_dir self) filename = None
           /\ fst (WeatherImageSelector.get_image svg2png self condition_id condition_time w)
              = Ok (Some (os_path_join (WeatherImageSelector._image_dir self) filename))
           /\ w1 = {| fs := <[os_path_join (WeatherImageSelector._image_dir self) filename
                              := FFile png]> (fs w);
                      written := (written w
                                  ++ [os_path_join (WeatherImageSelector._image_dir self)
                                                   filename])%list |}).
Proof.
  cbv zeta.
  assert (Habsent : forall path, generates self path w = true ->
                                 WeatherImageSelector._image_set self = "custom"
                                 /\ fs w !! path = None).
  { intros path Hg. unfold generates in Hg. apply andb_true_iff in Hg as [Hc Hex].
    apply String.eqb_eq in Hc. apply negb_true_iff in Hex.
    unfold os_path_exists in Hex. apply bool_decide_eq_false in Hex.
    split; [exact Hc |]. destruct (fs w !! path) eqn:E; [| reflexivity].
    exfalso. apply Hex. eauto. }
  destruct (get_image_cases svg2png self condition_id condition_time)
    as [H | [H | [filename H]]]; try (rewrite H; cbn [snd]; split; [tauto | left; reflexivity]).
  rewrite H.
  destruct (generates self (os_path_join (WeatherImageSelector._image_dir self) filename) w)
    eqn:Hg.
  - destruct (Habsent _ Hg) as [Hc Hnone].
    destruct (resolve svg2png self filename w) as [[p | e] w2] eqn:Hr; cbn [fst snd rbind].
    + destruct (resolve_generated svg2png self filename w w2 p Hg Hr)
        as (svg_dir & content & png & Hs & Ht & Hp & _ & -> & ->).
      split.
      * intros path node Hnode. cbn [with_asset fs].
        rewrite lookup_insert_ne; [exact Hnode |]. intros <-. congruence.
      * right. exists filename, svg_dir, content, png. auto 10.
    + rewrite (resolve_raise _ _ _ _ _ _ Hr). split; [tauto | left; reflexivity].
  - rewrite (resolve_no_generation svg2png self filename w Hg). cbn [snd].
    split; [tauto | left; reflexivity].
Qed.

Lemma get_image_keeps_existing_files_witness :
  let w1 := snd (WeatherImageSelector.get_image sample_png custom_selector 800 "day"
                   custom_world) in
  written w1 = ["icons/#ffffff/wi-day-sunny.png"]
  /\ fs w1 !! "svg/wi-day-sunny.svg"
     = Some (FFile ("<svg style=" ++ dquote ++ "x" ++ dquote ++ "/>")).
Proof.
  intros w1. split; [vm_compute; reflexivity |].
  apply (proj1 (get_image_keeps_existing_files sample_png custom_selector 800 "day"
                  custom_world)).
  vm_compute. reflexivity.
Defined.

(** In the light and dark modes the resolver only computes paths: the three
    lookup methods leave the file system and the list of generated assets
    untouched, and the fixed icons and the unknown-condition icon are always
    returned. *)
Theorem theme_lookups_are_pure (svg2png : string -> option string)
    (self : WeatherImageSelector.t) (condition_id : Z) (condition_time name : string)
    (w : world) :
  String.eqb (WeatherImageSelector._image_set self) "custom" = false ->
  snd (WeatherImageSelector.get_image svg2png self condition_id condition_time w) = w
  /\ WeatherImageSelector.get_unknown_image svg2png self w
     = (Ok (os_path_join (WeatherImageSelector._image_dir self) "wi-na.png"), w)
  /\ exists filename,
       In filename ["wi-humidity.png"; "wi-raindrops.png"; "wi-strong-wind.png";
                    "wi-umbrella.png"; "wi-na.png"]
       /\ WeatherImageSelector.get_icon svg2png self name w
          = (Ok (os_path_join (WeatherImageSelector._image_dir self) filename), w).
Proof.
  intros Hmode.
  assert (Hres : forall filename,
             resolve svg2png self filename w
             = (Ok (os_path_join (WeatherImageSelector._image_dir self) filename), w)).
  { intros filename. apply resolve_no_generation. unfold generates. now rewrite Hmode. }
  split; [| split].
  - destruct (get_image_world svg2png self condition_id condition_time w)
      as [filename [H | H]]; [exact H |].
    rewrite H, Hres. reflexivity.
  - rewrite get_unknown_image_resolve. apply Hres.
  - unfold WeatherImageSelector.get_icon.
    repeat match goal with |- context [if String.eqb name ?s then _ else _] =>
             destruct (String.eqb name s) end;
      eexists; (split; [| apply Hres]); cbn; tauto.
Qed.

Lemma theme_lookups_are_pure_witness :
  WeatherImageSelector.get_unknown_image sample_png light_selector bare_world
  = (Ok "icons/light/wi-na.png", bare_world).
Proof.
  exact (proj1 (proj2 (theme_lookups_are_pure sample_png light_selector 800 "day" "wind"
                         bare_world eq_refl))).
Defined.

(** A code and tag that the table maps to a file name resolve, in the light
    and dark modes, to that name joined to the theme directory, a path that
    ends with the file name; nothing is written. *)
Theorem get_image_of_mapped_entry (svg2png : string -> option string)
    (self : WeatherImageSelector.t) (condition_id : Z) (condition_time filename : string)
    (w : world) :
  WeatherImageSelector._initialized self = true ->
  String.eqb (WeatherImageSelector._image_set self) "custom" = false ->
  lookup_mapping (WeatherImageSelector._image_mappings self) condition_id condition_time
  = Some filename ->
  str_startswith filename "/" = false ->
  WeatherImageSelector.get_image svg2png self condition_id condition_time w
  = (Ok (Some (os_path_join (WeatherImageSelector._image_dir self) filename)), w)
  /\ str_endswith (os_path_join (WeatherImageSelector._image_dir self) filename) filename
     = true.
Proof.
  intros Hi Hmode Hmap Hrel. split; [| now apply os_path_join_endswith].
  unfold lookup_mapping in Hmap.
  destruct (WeatherImageSelector._image_mappings self !! condition_id) as [m |] eqn:Hm;
    [| discriminate].
  rewrite (get_image_mapped svg2png self condition_id condition_time filename m w Hi Hm Hmap).
  rewrite resolve_no_generation; [reflexivity |].
  unfold generates. now rewrite Hmode.
Qed.

Lemma get_image_of_mapped_entry_witness :
  WeatherImageSelector.get_image sample_png light_selector 800 "day" bare_world
  = (Ok (Some "icons/light/wi-day-sunny.png"), bare_world).
Proof.
  exact (proj1 (get_image_of_mapped_entry sample_png light_selector 800 "day"
                  "wi-day-sunny.png" bare_world eq_refl eq_refl eq_refl eq_refl)).
Defined.

(** ** Start-up of the resolver *)

Lemma os_mkdir_ok (path : string) (w w' : world) :
  os_mkdir path w = (Ok tt, w') ->
  fs w' = <[path := FDir]> (fs w) /\ written w' = written w.
Proof.
  unfold os_mkdir. destruct (can_create (fs w) path); intros H; [| discriminate].
  injection H as <-. split; reflexivity.
Qed.

(** What a start-up in custom mode that returns has established: the
    colour was resolved to a hex value, which names the asset directory under
    the image directory; the SVG directory exists; the asset directory exists
    afterwards, created if it was missing; nothing that was on disk was
    changed and no asset was generated yet; the table is the loaded one. *)
Theorem custom_init_postconditions (webcolors_hex : string -> option string)
    (config : Config) (rows : option (list (Z * string * string))) (w w' : world)
    (self : WeatherImageSelector.t) :
  icons_image_set config = "custom" ->
  WeatherImageSelector.__init__ webcolors_hex config rows w = (Ok self, w') ->
  exists color svg_dir table,
    webcolors_hex (icons_image_color config) = Some color
    /\ icons_svg_dir config = Some svg_dir
    /\ rows = Some table
    /\ os_path_exists (fs w) svg_dir = true
    /\ WeatherImageSelector._image_set self = "custom"
    /\ WeatherImageSelector._color self = color
    /\ WeatherImageSelector._image_dir self = os_path_join (icons_image_dir config) color
    /\ WeatherImageSelector._image_mappings self = WeatherImageSelector.load_mappings table
    /\ os_path_exists (fs w') (WeatherImageSelector._image_dir self) = true
    /\ written w' = written w
    /\ (forall path node, fs w !! path = Some node -> fs w' !! path = Some node).
Proof.
  intros Hset. unfold WeatherImageSelector.__init__, WeatherImageSelector._init_images,
    WeatherImageSelector.get_hex.
  cbn [WeatherImageSelector._image_set WeatherImageSelector._image_dir
       WeatherImageSelector._color WeatherImageSelector._svg_dir
       WeatherImageSelector._mapping_file].
  rewrite Hset. rewrite bool_decide_eq_true_2 by set_solver.
  change (String.eqb "custom" "custom") with true. cbn [negb].
  destruct (webcolors_hex (icons_image_color config)) as [color |]; [| discriminate].
  destruct (icons_svg_dir config) as [svg_dir |]; [| discriminate].
  destruct (os_path_exists (fs w) svg_dir) eqn:Hsvg; cbn [negb]; [| discriminate].
  set (path := os_path_join (icons_image_dir config) color).
  destruct (os_path_exists (fs w) path) eqn:Hdir; cbn [negb].
  - destruct rows as [table |]; intros H; [| discriminate].
    injection H as <- <-. exists color, svg_dir, table. cbn. repeat split; auto.
  - destruct (os_mkdir path w) as [[[] | e] w1] eqn:Hmk; [| discriminate].
    destruct (os_mkdir_ok _ _ _ Hmk) as [Hfs Hwr].
    destruct rows as [table |]; intros H; [| discriminate].
    injection H as <- <-. exists color, svg_dir, table. cbn.
    repeat split; auto.
    + rewrite Hfs. apply os_path_exists_insert.
    + intros q node Hq. rewrite Hfs. rewrite lookup_insert_ne; [exact Hq |].
      intros <-. unfold os_path_exists in Hdir. apply bool_decide_eq_false in Hdir.
      apply Hdir. eauto.
Qed.

Lemma custom_init_postconditions_witness :
  os_path_exists (fs template_world) "icons/#ffffff" = false
  /\ os_path_exists (fs custom_world) "icons/#ffffff" = true
  /\ fs custom_world !! "svg" = Some FDir.
Proof.
  destruct (custom_init_postconditions sample_hex (sample_config "metric" "custom")
              (Some sample_rows) template_world custom_world custom_selector
              eq_refl custom_selector_init)
    as (color & svg_dir & table & _ & _ & _ & _ & _ & _ & _ & _ & Hex & _ & Hkeep).
  split; [reflexivity |]. split; [exact Hex |].
  apply Hkeep. reflexivity.
Defined.

(** The configuration errors of the resolver: an image set outside light,
    dark and custom, a colour that is neither a hex value nor a colour name,
    and a missing SVG directory each end the process with status 1 before
    anything is touched; without a readable mapping file no start-up returns;
    and custom mode without an SVG directory in the configuration raises
    [TypeError] instead of exiting. *)
Theorem init_configuration_errors (webcolors_hex : string -> option string)
    (config : Config) (rows : option (list (Z * string * string))) (w : world) :
  (~ In (icons_image_set config) ["light"; "dark"; "custom"] ->
   WeatherImageSelector.__init__ webcolors_hex config rows w = (Raise (SystemExit 1), w))
  /\ (icons_image_set config = "custom" ->
      webcolors_hex (icons_image_color config) = None ->
      WeatherImageSelector.__init__ webcolors_hex config rows w = (Raise (SystemExit 1), w))
  /\ (icons_image_set config = "custom" ->
      (exists color, webcolors_hex (icons_image_color config) = Some color) ->
      (icons_svg_dir config = None ->
       WeatherImageSelector.__init__ webcolors_hex config rows w = (Raise TypeError, w))
      /\ (forall svg_dir, icons_svg_dir config = Some svg_dir ->
            os_path_exists (fs w) svg_dir = false ->
            WeatherImageSelector.__init__ webcolors_hex config rows w
            = (Raise (SystemExit 1), w)))
  /\ (rows = None ->
      exists e w', WeatherImageSelector.__init__ webcolors_hex config rows w = (Raise e, w')).
Proof.
  unfold WeatherImageSelector.__init__, WeatherImageSelector._init_images,
    WeatherImageSelector.get_hex.
  cbn [WeatherImageSelector._image_set WeatherImageSelector._image_dir
       WeatherImageSelector._color WeatherImageSelector._svg_dir
       WeatherImageSelector._mapping_file].
  split; [| split; [| split]].
  - intros Hnot. rewrite bool_decide_eq_false_2; [reflexivity |].
    intros Hin. apply Hnot. now apply list_elem_of_In.
  - intros Hset Hhex. rewrite Hset, Hhex.
    rewrite bool_decide_eq_true_2 by set_solver. reflexivity.
  - intros Hset [color Hhex]. rewrite Hset, Hhex.
    rewrite bool_decide_eq_true_2 by set_solver.
    change (String.eqb "custom" "custom") with true. cbn [negb]. split.
    + intros ->. reflexivity.
    + intros svg_dir -> ->. reflexivity.
  - intros ->.
    repeat match goal with
           | |- context [if ?b then _ else _] => destruct b
           | |- context [match ?o with Some _ => _ | None => _ end] => destruct o
           | |- context [match ?r with Ok _ => _ | Raise _ => _ end] => destruct r
           | |- context [let (_, _) := ?p in _] => destruct p
           end; eauto.
Qed.

(** ** The console dump *)

Lemma update_data_internet_active (self : WeatherDataFetcher.t) (io : cycle) :
  WeatherDataFetcher.internet_active (fst (WeatherDataFetcher.update_data self io))
  = probe_ok io.
Proof.
  unfold WeatherDataFetcher.update_data, WeatherDataFetcher._fetch_weather.
  cbn [WeatherDataFetcher._fetch_internet_status WeatherDataFetcher.internet_active].
  repeat match goal with |- context [if ?b then _ else _] => destruct b end; reflexivity.
Qed.

Section Console.

Variable format_2f : Q -> string.
Variable strftime : string -> Q -> result string.
Variable py_repr : pyval -> string.

(** Before any cycle has been committed the console dump is two lines, the
    reachability of the host and a notice that there is no data; it does not
    raise, whatever the unit system. *)
Theorem print_display_without_data (fetcher : WeatherDataFetcher.t)
    (formatter : WeatherFormatter.t) (io : cycle) :
  weather_state fetcher = (None, None, (-1)%Q) ->
  probe_ok io = false \/ commits io = false ->
  WeatherDataDisplay.print_display format_2f strftime py_repr fetcher formatter io
  = (fst (WeatherDataFetcher.update_data fetcher io),
     ["Internet Status: " ++ (if probe_ok io then "OK" else "DOWN");
      "Unable to fetch weather data."],
     Ok tt).
Proof.
  intros Hst Hno. unfold WeatherDataDisplay.print_display.
  assert (Hkeep : weather_state (fst (WeatherDataFetcher.update_data fetcher io))
                  = (None, None, (-1)%Q)).
  { rewrite update_data_state, Hst.
    destruct Hno as [Hp | Hc]; [unfold due; now rewrite Hp | now rewrite Hc, andb_false_r]. }
  unfold weather_state in Hkeep. injection Hkeep as _ _ Hlast.
  rewrite Hlast, update_data_internet_active. reflexivity.
Qed.

(** With metric units the console dump never gets past the current
    conditions: as soon as an update has been committed the call raises,
    after at most the three lines of the header. *)
Theorem print_display_metric_raises (fetcher : WeatherDataFetcher.t) (config : Config)
    (io : cycle) :
  location_units config = "metric" ->
  WeatherDataFetcher.Qgtb
    (WeatherDataFetcher.last_weather_update (fst (WeatherDataFetcher.update_data fetcher io)))
    0 = true ->
  exists out e,
    WeatherDataDisplay.print_display format_2f strftime py_repr fetcher
      (WeatherFormatter.__init__ config) io
    = (fst (WeatherDataFetcher.update_data fetcher io), out, Raise e)
    /\ (length out <= 3)%nat.
Proof.
  intros Hu Hlast. unfold WeatherDataDisplay.print_display. rewrite Hlast.
  destruct (WeatherFormatter.format_datetime _ _ _) as [date | e];
    [| eexists _, e; split; [reflexivity | cbn; lia]].
  destruct (WeatherDataFetcher.weather _) as [weather |];
    [| eexists _, _; split; [reflexivity | cbn; lia]].
  destruct (WeatherFormatter.format_weather format_2f (WeatherFormatter.__init__ config) weather)
    as [text | e] eqn:Hfw; [exfalso | eexists _, e; split; [reflexivity | cbn; lia]].
  unfold WeatherFormatter.format_weather in Hfw.
  repeat match type of Hfw with
         | rbind ?m _ = Ok _ => destruct m eqn:?; cbn [rbind] in Hfw; [| discriminate]
         end.
  eapply format_wind_speed_metric; eauto.
Qed.

End Console.

Lemma print_display_without_data_witness :
  WeatherDataDisplay.print_display sample_2f sample_strftime sample_repr sample_fetcher
    (WeatherFormatter.__init__ (sample_config "metric" "light")) (offline_cycle 1000)
  = (fst (WeatherDataFetcher.update_data sample_fetcher (offline_cycle 1000)),
     ["Internet Status: DOWN"; "Unable to fetch weather data."], Ok tt).
Proof.
  apply (print_display_without_data sample_2f sample_strftime sample_repr sample_fetcher
           (WeatherFormatter.__init__ (sample_config "metric" "light")) (offline_cycle 1000)).
  - reflexivity.
  - left. reflexivity.
Defined.

Lemma print_display_metric_raises_witness :
  snd (WeatherDataDisplay.print_display sample_2f sample_strftime sample_repr sample_fetcher
         (WeatherFormatter.__init__ (sample_config "metric" "light")) (good_cycle 1000))
  = Raise (AttributeError "_wind_unit")
  /\ snd (WeatherDataDisplay.print_display sample_2f sample_strftime sample_repr
            sample_fetcher (WeatherFormatter.__init__ (sample_config "imperial" "light"))
            (good_cycle 1000))
     = Ok tt.
Proof.
  destruct (print_display_metric_raises sample_2f sample_strftime sample_repr sample_fetcher
              (sample_config "metric" "light") (good_cycle 1000) eq_refl eq_refl)
    as (out & e & Hp & _).
  split; vm_compute; reflexivity.
Defined.

(** Outside the imperial system the precipitation is printed in mm/h as an
    integer truncated toward zero, so any volume below one millimetre per
    hour is shown as 0 mm/h. *)
Theorem format_precip_metric_truncates (format_2f : Q -> string) (config : Config)
    (precip : Q) (label : string) :
  String.eqb (location_units config) "imperial" = false ->
  WeatherFormatter.format_precip format_2f (WeatherFormatter.__init__ config)
    (PNum precip) label
  = Ok (label ++ " " ++ str_of_Z (Qtrunc precip) ++ " mm/h")
  /\ ((0 <= precip < 1)%Q -> Qtrunc precip = 0).
Proof.
  intros Hu. split.
  - unfold WeatherFormatter.format_precip.
    replace (WeatherFormatter._units (WeatherFormatter.__init__ config))
      with (location_units config).
    + rewrite Hu. reflexivity.
    + unfold WeatherFormatter.__init__.
      destruct (String.eqb (location_units config) "metric"); [reflexivity |].
      now rewrite Hu.
  - intros [Hlo Hhi]. destruct precip as [n d]. unfold Qtrunc. cbn [Qnum Qden].
    unfold Qle, Qlt in *. cbn in Hlo, Hhi.
    apply Z.quot_small. lia.
Qed.

Lemma format_precip_metric_truncates_witness :
  WeatherFormatter.format_precip sample_2f
    (WeatherFormatter.__init__ (sample_config "metric" "light")) (PNum (9 # 10)) "Precip:"
  = Ok "Precip: 0 mm/h".
Proof.
  exact (proj1 (format_precip_metric_truncates sample_2f (sample_config "metric" "light")
                  (9 # 10) "Precip:" eq_refl)).
Defined.
